(** * zipline-fmp-ingest: the retrying FMP client and the reshaping stage

    A shallow embedding of [fmp.py] and [ingest.py].  Python code that talks
    to the outside (the API callable, the logger, [sleep], the three zipline
    writers) is run in a small monad that threads the interpreter state and
    collects the observable events of a run; pandas frames are finite lists
    of labelled rows. *)

From Stdlib Require Import ZArith QArith Qcanon.
From stdpp Require Import base option list list_numbers gmap strings
  pretty infinite sorting.

Local Open Scope string_scope.
Local Open Scope list_scope.
Set Warnings "-register-all".

(** ** Python values, exceptions and the interpreter monad *)

Module Python.

(** JSON-like values: what the API returns and what a [params] dictionary
    holds.  Python compares [1] and [1.0] equal, hence one numeric case over
    the canonical rationals. *)
Inductive pyval :=
| VNone
| VBool (b : bool)
| VNum (x : Qc)
| VStr (s : string)
| VList (items : list pyval)
| VDict (entries : list (string * pyval)).

(** [bool(v)] *)
Definition truthy (v : pyval) : bool :=
  match v with
  | VNone => false
  | VBool b => b
  | VNum x => negb (Qeq_bool x 0)
  | VStr s => negb (String.eqb s "")
  | VList items => match items with [] => false | _ => true end
  | VDict entries => match entries with [] => false | _ => true end
  end.

(** The exception classes that occur.  [Exception msg] stands for any
    subclass of [Exception] an external callable raises; [KeyboardInterrupt]
    for the [BaseException]s that [except Exception] lets through. *)
Inductive exn :=
| UnboundLocalError (name : string)
| KeyError (key : string)
| TypeError (msg : string)
| AttributeError (msg : string)
| ValueError (msg : string)
| Exception (msg : string)
| KeyboardInterrupt.

Definition is_Exception (e : exn) : bool :=
  match e with KeyboardInterrupt => false | _ => true end.

(** [str(e)] *)
Definition exn_str (e : exn) : string :=
  match e with
  | UnboundLocalError name =>
      "local variable '" +:+ name +:+ "' referenced before assignment"
  | KeyError key => "'" +:+ key +:+ "'"
  | TypeError msg | AttributeError msg | ValueError msg | Exception msg => msg
  | KeyboardInterrupt => ""
  end.

Inductive outcome (A : Type) :=
| Ret (a : A)
| Raise (e : exn).
Arguments Ret {A} a.
Arguments Raise {A} e.

#[global] Instance outcome_ret : MRet outcome := λ A a, Ret a.
#[global] Instance outcome_bind : MBind outcome := λ A B f m,
  match m with Ret a => f a | Raise e => Raise e end.

(** A local name is unbound until assigned, and unbound again after [del]. *)
Inductive binding (A : Type) :=
| Unbound
| Bound (a : A).
Arguments Unbound {A}.
Arguments Bound {A} a.

(** [obj[key]] on a JSON-like value, for a string key. *)
Fixpoint assoc_get (entries : list (string * pyval)) (key : string)
  : option pyval :=
  match entries with
  | [] => None
  | (k, v) :: rest => if String.eqb k key then Some v else assoc_get rest key
  end.

Definition subscript (v : pyval) (key : string) : outcome pyval :=
  match v with
  | VDict entries =>
      match assoc_get entries key with
      | Some x => Ret x
      | None => Raise (KeyError key)
      end
  | VList _ => Raise (TypeError "list indices must be integers or slices, not str")
  | VStr _ => Raise (TypeError "string indices must be integers")
  | _ => Raise (TypeError "object is not subscriptable")
  end.

(** [d[key] = v] on an insertion-ordered dictionary. *)
Fixpoint assoc_set (entries : list (string * pyval)) (key : string) (v : pyval)
  : list (string * pyval) :=
  match entries with
  | [] => [(key, v)]
  | (k, x) :: rest =>
      if String.eqb k key then (k, v) :: rest else (k, x) :: assoc_set rest key v
  end.

(** [repr(s)] for a string without quotes, backslashes or control
    characters, which is what a column name is here, and [repr] of a list
    of such strings. *)
Definition repr_str (s : string) : string := "'" +:+ s +:+ "'".

Definition repr_list (l : list string) : string :=
  "[" +:+ String.concat ", " (repr_str <$> l) +:+ "]".

End Python.
Export Python.

(** ** pandas frames *)

Module Pandas.

(** A cell of a frame.  [NaN] is the null placeholder (NaN, NaT, None);
    [Time t] is a timestamp, [t] nanoseconds since the epoch; [Obj] is a
    nested list or dictionary, which the reshaping never looks into. *)
Inductive cell :=
| NaN
| Num (x : Qc)
| Str (s : string)
| Time (t : Z)
| Obj.

#[global] Instance cell_eq_dec : EqDecision cell.
Proof. solve_decision. Defined.
#[global] Instance cell_inhabited : Inhabited cell := populate NaN.

(** An index label has one cell per index level. *)
Definition label : Type := list cell.

(** A row: its index label and its cells by column name; a column that the
    row does not mention is null there. *)
Definition row : Type := label * gmap string cell.

(** [index_names] has one entry per index level, [None] for an unnamed level. *)
Record DataFrame := mkDataFrame {
  index_names : list (option string);
  columns : list string;
  rows : list row
}.

(** A Series: labelled values. *)
Definition Series : Type := list (label * cell).

Definition index (df : DataFrame) : list label := (rows df).*1.

(** The default positional index [0 .. n-1]. *)
Definition RangeIndex (n : nat) : list label :=
  (λ i : Z, [Num (Q2Qc (inject_Z i))]) <$> seqZ 0 (Z.of_nat n).

(** [pd.DataFrame(columns=cols)]: headers and no row. *)
Definition empty_frame (cols : list string) : DataFrame :=
  mkDataFrame [None] cols [].

(** *** Order on cells: numbers, strings and timestamps each in their own
    order, nulls last.  pandas only ever sorts a level of one kind; between
    kinds the order below is a convention of the model. *)
Definition cell_rank (c : cell) : Z :=
  match c with Num _ => 0 | Str _ => 1 | Time _ => 2 | Obj => 3 | NaN => 4 end.

Definition cell_cmp (a b : cell) : comparison :=
  match a, b with
  | Num x, Num y => (x ?= y)%Qc
  | Str s, Str t => String.compare s t
  | Time s, Time t => (s ?= t)%Z
  | _, _ => (cell_rank a ?= cell_rank b)%Z
  end.

Definition cell_leb (a b : cell) : bool :=
  match cell_cmp a b with Gt => false | _ => true end.

Fixpoint label_cmp (a b : label) : comparison :=
  match a, b with
  | [], [] => Eq
  | [], _ :: _ => Lt
  | _ :: _, [] => Gt
  | x :: a', y :: b' =>
      match cell_cmp x y with Eq => label_cmp a' b' | c => c end
  end.

Definition label_leb (a b : label) : bool :=
  match label_cmp a b with Gt => false | _ => true end.

Definition cell_repr (c : cell) : string :=
  match c with
  | NaN => "nan"
  | Num x => pretty (Qnum x) +:+ "/" +:+ pretty (Qden x)
  | Str s => s
  | Time t => pretty t
  | Obj => "object"
  end.

(** *** Columns *)

(** [df[c]] *)
Definition get_column (c : string) (df : DataFrame) : outcome (list cell) :=
  if bool_decide (c ∈ columns df)
  then Ret ((λ r : row, r.2 !!! c) <$> rows df)
  else Raise (KeyError c).

(** [df[c] = values]: replaces the column, or appends it after the others. *)
Definition set_column (c : string) (values : list cell) (df : DataFrame)
  : outcome DataFrame :=
  if bool_decide (length values = length (rows df))
  then Ret (mkDataFrame (index_names df)
              (if bool_decide (c ∈ columns df) then columns df
               else columns df ++ [c])
              (zip_with (λ (r : row) v, (r.1, <[c := v]> r.2)) (rows df) values))
  else Raise (ValueError "Length of values does not match length of index").

(** [df[c] = v] for a scalar [v] *)
Definition set_column_scalar (c : string) (v : cell) (df : DataFrame)
  : DataFrame :=
  mkDataFrame (index_names df)
    (if bool_decide (c ∈ columns df) then columns df else columns df ++ [c])
    ((λ r : row, (r.1, <[c := v]> r.2)) <$> rows df).

(** [df[[c1, ..., cn]]]; the [KeyError] names all the labels asked for
    when none is a column, the missing ones otherwise. *)
Definition select_columns (cols : list string) (df : DataFrame)
  : outcome DataFrame :=
  match filter (λ c, c ∉ columns df) cols with
  | [] => Ret (mkDataFrame (index_names df) cols
                 ((λ r : row, (r.1, filter (λ kv, kv.1 ∈ cols) r.2)) <$> rows df))
  | missing =>
      if bool_decide (length missing = length cols)
      then Raise (KeyError ("None of [Index(" +:+ repr_list cols +:+
                            ", dtype='object')] are in the [columns]"))
      else Raise (KeyError (repr_list missing +:+ " not in index"))
  end.

(** [df.drop(columns=cols)] *)
Definition drop_columns (cols : list string) (df : DataFrame)
  : outcome DataFrame :=
  match filter (λ c, c ∉ columns df) cols with
  | [] => Ret (mkDataFrame (index_names df)
                 (filter (λ c, c ∉ cols) (columns df))
                 ((λ r : row, (r.1, filter (λ kv, kv.1 ∉ cols) r.2)) <$> rows df))
  | c :: _ => Raise (KeyError c)
  end.

(** *** Index *)

(** [df.set_index(keys, drop=True)]; the [KeyError] lists the keys that
    are not columns. *)
Definition set_index (keys : list string) (df : DataFrame) : outcome DataFrame :=
  match filter (λ c, c ∉ columns df) keys with
  | [] => Ret (mkDataFrame (Some <$> keys)
                 (filter (λ c, c ∉ keys) (columns df))
                 ((λ r : row, ((λ k, r.2 !!! k) <$> keys,
                               filter (λ kv, kv.1 ∉ keys) r.2)) <$> rows df))
  | missing =>
      Raise (KeyError ("None of " +:+ repr_list missing +:+
                       " are in the columns"))
  end.

(** Position of a named index level. *)
Fixpoint level_position (level : string) (names : list (option string))
  : option nat :=
  match names with
  | [] => None
  | n :: rest =>
      if bool_decide (n = Some level) then Some 0
      else S <$> level_position level rest
  end.

(** The sort key of [df.sort_index(level=...)]: the named level first, the
    remaining levels after it. *)
Definition sort_key (i : nat) (l : label) : label := (l !!! i) :: delete i l.

(** A stable sort: entries that compare equal keep their order. *)
Fixpoint insert_sorted {A} (leb : A → A → bool) (x : A) (l : list A) : list A :=
  match l with
  | [] => [x]
  | y :: l' => if leb x y then x :: y :: l' else y :: insert_sorted leb x l'
  end.

Definition stable_sort {A} (leb : A → A → bool) (l : list A) : list A :=
  foldr (insert_sorted leb) [] l.

Definition rows_leb (i : nat) (r1 r2 : row) : bool :=
  label_leb (sort_key i r1.1) (sort_key i r2.1).

(** [df.sort_index(level=level)] *)
Definition sort_index (level : string) (df : DataFrame) : outcome DataFrame :=
  match level_position level (index_names df) with
  | None => Raise (KeyError level)
  | Some i => Ret (mkDataFrame (index_names df) (columns df)
                     (stable_sort (rows_leb i) (rows df)))
  end.

(** [idx.duplicated(keep='first')]: a label is flagged when it occurred at
    an earlier position. *)
Fixpoint duplicated_from (seen idx : list label) : list bool :=
  match idx with
  | [] => []
  | k :: rest => bool_decide (k ∈ seen) :: duplicated_from (k :: seen) rest
  end.

Definition duplicated (idx : list label) : list bool := duplicated_from [] idx.

(** [df[mask]] for a boolean mask as long as the frame *)
Fixpoint mask_rows (mask : list bool) (rs : list row) : list row :=
  match mask, rs with
  | b :: mask', r :: rs' =>
      if b then r :: mask_rows mask' rs' else mask_rows mask' rs'
  | _, _ => []
  end.

Definition getitem_mask (mask : list bool) (df : DataFrame) : DataFrame :=
  mkDataFrame (index_names df) (columns df) (mask_rows mask (rows df)).

Fixpoint find_row (k : label) (rs : list row) : option (gmap string cell) :=
  match rs with
  | [] => None
  | r :: rest => if bool_decide (r.1 = k) then Some r.2 else find_row k rest
  end.

(** [df.reindex(target)]: one row per target label, in that order; a label
    the frame lacks gets a row of nulls.  A frame whose own labels repeat
    cannot be reindexed. *)
Definition reindex (target : list label) (df : DataFrame) : outcome DataFrame :=
  if bool_decide (NoDup (index df))
  then Ret (mkDataFrame (index_names df) (columns df)
              ((λ k, (k, default ∅ (find_row k (rows df)))) <$> target))
  else Raise (ValueError "cannot reindex on an axis with duplicate labels").

(** [df.xs(key, level=level)]: the rows whose label has [key] at that level,
    the level itself dropped. *)
Definition xs (key : cell) (level : string) (df : DataFrame) : outcome DataFrame :=
  match level_position level (index_names df) with
  | None => Raise (KeyError level)
  | Some i =>
      match filter (λ r : row, r.1 !! i = Some key) (rows df) with
      | [] => Raise (KeyError (cell_repr key))
      | sel => Ret (mkDataFrame (delete i (index_names df)) (columns df)
                      ((λ r : row, (delete i r.1, r.2)) <$> sel))
      end
  end.

(** [df.append(other)]: the rows of both, labels kept. *)
Definition append (df other : DataFrame) : DataFrame :=
  mkDataFrame (index_names other)
    (columns df ++ filter (λ c, c ∉ columns df) (columns other))
    (rows df ++ rows other).

(** *** Aggregation *)

(** [np.min] and [np.max] over a column, nulls skipped *)
Definition cell_min (cs : list cell) : cell :=
  foldr (λ c acc, match c, acc with
                  | NaN, _ => acc
                  | _, NaN => c
                  | _, _ => if cell_leb c acc then c else acc
                  end) NaN cs.

Definition cell_max (cs : list cell) : cell :=
  foldr (λ c acc, match c, acc with
                  | NaN, _ => acc
                  | _, NaN => c
                  | _, _ => if cell_leb acc c then c else acc
                  end) NaN cs.

(** The group keys of [df.groupby(by=key)]: the distinct non-null values of
    the column, sorted. *)
Definition group_keys (key : string) (df : DataFrame) : list cell :=
  stable_sort cell_leb
    (remove_dups (filter (λ c, c ≠ NaN) ((λ r : row, r.2 !!! key) <$> rows df))).

Definition group_column (key : string) (k : cell) (c : string) (df : DataFrame)
  : list cell :=
  (λ r : row, r.2 !!! c) <$> filter (λ r : row, r.2 !!! key = k) (rows df).

(** A timestamp in a numpy array is a 64-bit signed count of nanoseconds:
    sums wrap around silently, and the least value is the null [NaT]. *)
Definition int64_min : Z := (- 2 ^ 63)%Z.
Definition int64_max : Z := (2 ^ 63 - 1)%Z.

Definition int64_wrap (z : Z) : Z :=
  ((z - int64_min) mod 2 ^ 64 + int64_min)%Z.

Definition datetime64 (t : Z) : cell :=
  if (t =? int64_min)%Z then NaN else Time t.

(** [values + pd.Timedelta(...)] on an array of timestamps *)
Definition add_timedelta (delta : Z) (c : cell) : outcome cell :=
  match c with
  | Time t => Ret (datetime64 (int64_wrap (t + delta)))
  | NaN => Ret NaN
  | _ => Raise (TypeError "unsupported operand type(s) for +")
  end.

Fixpoint map_outcome {A B} (f : A → outcome B) (l : list A) : outcome (list B) :=
  match l with
  | [] => Ret []
  | a :: rest =>
      match f a with
      | Raise e => Raise e
      | Ret b => match map_outcome f rest with
                 | Raise e => Raise e
                 | Ret bs => Ret (b :: bs)
                 end
      end
  end.

(** [pd.Timedelta(days=n)], in nanoseconds *)
Definition Timedelta_days (n : Z) : Z := (n * 86400000000000)%Z.

(** *** Construction from API records *)

Definition cell_of_pyval (v : pyval) : cell :=
  match v with
  | VNone => NaN
  | VBool b => Num (if b then 1 else 0)
  | VNum x => Num x
  | VStr s => Str s
  | VList _ | VDict _ => Obj
  end.

Fixpoint record_cells (entries : list (string * pyval)) : gmap string cell :=
  match entries with
  | [] => ∅
  | (k, v) :: rest => <[k := cell_of_pyval v]> (record_cells rest)
  end.

Definition as_record (v : pyval) : option (list (string * pyval)) :=
  match v with VDict entries => Some entries | _ => None end.

(** Column labels in order of first appearance. *)
Definition union_columns (recs : list (list (string * pyval))) : list string :=
  foldl (λ acc c, if bool_decide (c ∈ acc) then acc else acc ++ [c]) []
    (concat ((λ e : list (string * pyval), e.*1) <$> recs)).

(** [pd.DataFrame(v)] for [v] a list of records, which is what the API
    delivers under ["historical"] and what [RawPriceHistory] declares, and
    for [None].  The constructor accepts other shapes (a dictionary of
    columns, a list of lists); they are not modelled, the [ValueError] below
    stands in for them, and the properties of [convert_price_to_df] are
    stated for lists of records. *)
Definition DataFrame_of_records (v : pyval) : outcome DataFrame :=
  match v with
  | VNone => Ret (mkDataFrame [None] [] [])
  | VList items =>
      match mapM as_record items with
      | Some recs =>
          Ret (mkDataFrame [None] (union_columns recs)
                 (zip (RangeIndex (length recs)) (record_cells <$> recs)))
      | None => Raise (ValueError "DataFrame constructor not properly called!")
      end
  | _ => Raise (ValueError "DataFrame constructor not properly called!")
  end.

(** [df.c], attribute access to a column *)
Definition getattr_column (c : string) (df : DataFrame) : outcome Series :=
  if bool_decide (c ∈ columns df)
  then Ret ((λ r : row, (r.1, r.2 !!! c)) <$> rows df)
  else Raise (AttributeError ("'DataFrame' object has no attribute '" +:+ c +:+ "'")).

End Pandas.
Export Pandas.

(** ** Observable events and the monad *)

Module Runtime.

Definition loc : Type := positive.

Inductive event :=
| EvInvoke (kwargs : gmap string pyval) (r : outcome pyval)
| EvLogError (msg : string)
| EvLogInfo (msg : string)
| EvSleep (seconds : Z)
| EvAssetWrite (equities exchanges : DataFrame)
| EvDailyBarWrite (data : list (label * DataFrame) * option exn) (show_progress : bool)
| EvAdjustmentWrite (splits dividends : DataFrame).

Section Monad.
Context {W : Type}.

(** The interpreter state: the heap of dictionaries that are passed by
    reference, and the state of everything outside the program. *)
Record state := mkState {
  heap : gmap loc (gmap string pyval);
  world : W
}.

Definition M (A : Type) : Type := state → outcome A * state * list event.

#[global] Instance M_ret : MRet M := λ A a s, (Ret a, s, []).

#[global] Instance M_bind : MBind M := λ A B f m s,
  match m s with
  | (Ret a, s1, t1) => let '(r, s2, t2) := f a s1 in (r, s2, t1 ++ t2)
  | (Raise e, s1, t1) => (Raise e, s1, t1)
  end.

Definition raise {A} (e : exn) : M A := λ s, (Raise e, s, []).

Definition emit (ev : event) : M unit := λ s, (Ret (), s, [ev]).

Definition lift {A} (r : outcome A) : M A := λ s, (r, s, []).

(** [try: body / except Exception as e: handler e] *)
Definition try_except {A} (body : M A) (handler : exn → M A) : M A := λ s,
  match body s with
  | (Raise e, s1, t1) =>
      if is_Exception e
      then let '(r, s2, t2) := handler e s1 in (r, s2, t1 ++ t2)
      else (Raise e, s1, t1)
  | done => done
  end.

(** Dictionaries live in the heap; a reference is never dangling in Python,
    an unallocated one reads as the empty dictionary here. *)
Definition load (p : loc) : M (gmap string pyval) := λ s,
  (Ret (default ∅ (heap s !! p)), s, []).

Definition store (p : loc) (d : gmap string pyval) : M unit := λ s,
  (Ret (), mkState (<[p := d]> (heap s)) (world s), []).

(** A dictionary display [{...}] allocates. *)
Definition alloc (d : gmap string pyval) : M loc := λ s,
  let p := fresh (dom (heap s)) in
  (Ret p, mkState (<[p := d]> (heap s)) (world s), []).

(** An external callable: it sees its keyword arguments and the outside
    world, returns or raises, and leaves the world in a new state.  Between
    two calls the program does nothing to the world but wait, so the state
    a call leaves is the one the next call finds. *)
Definition callable : Type := gmap string pyval → W → outcome pyval * W.

(** The call of [method] with the dictionary unpacked into keywords: the
    keywords are a copy of the dictionary. *)
Definition invoke (method : callable) (kwargs : gmap string pyval) : M pyval :=
  λ s, let '(r, w) := method kwargs (world s) in
       (r, mkState (heap s) w, [EvInvoke kwargs r]).

(** A zipline writer: an opaque sink that succeeds or raises. *)
Definition sink : Type := W → outcome unit * W.

Definition call_sink (ev : event) (w : sink) : M unit := λ s,
  let '(r, w') := w (world s) in (r, mkState (heap s) w', [ev]).

End Monad.
Arguments state : clear implicits.
Arguments M : clear implicits.
Arguments callable : clear implicits.
Arguments sink : clear implicits.

(** What the program imports from fmpsdk and pandas and does not define:
    the API endpoint, the clock, and the conversions between timestamps and
    text. *)
Class Externals (W : Type) := {
  historical_price_full : callable W;
  Timestamp_now : W → Z;
  strftime : Z → string → string;
  to_datetime_utc : cell → outcome cell
}.

(** The trading calendar, as far as the program uses it. *)
Record TradingCalendar := mkCalendar {
  sessions_in_range : Z → Z → list Z
}.

End Runtime.
Export Runtime.

(** ** fmp.py *)

Module Fmp.

Definition FMP_API_RETRIES : Z := 2.
Definition FMP_API_SLEEP_TIME : Z := 70.
Definition FMP_API_KEY : string := "yourkeyhere".
Definition FMP_DATE_FORMAT : string := "%Y-%m-%d".

Section Fmp.
Context {W : Type}.

(** The locals of [call_fmp] that the loop assigns.  [str_error] holds
    [None] or an exception object. *)
Record locals := mkLocals {
  res : binding pyval;
  str_error : binding (option exn)
}.

(** Lines 40-45: one [try] statement. *)
Definition attempt (method : callable W) (params : loc) (lc : locals)
  : M W locals :=
  try_except
    (kwargs ← load params;
     v ← invoke method kwargs;
     mret (mkLocals (Bound v) (Bound None)))
    (λ e,
       (* [as str_error] binds the name for the clause ... *)
       let lc1 := mkLocals (res lc) (Bound (Some e)) in
       emit (EvLogError ("FMP Request failed. " +:+ exn_str e));;
       (* ... and leaving the clause deletes it *)
       mret (mkLocals (res lc1) Unbound)).

(** Lines 39-53: the [for x in range(0, retries)] loop, [xs] being the
    values of [x] still to run. *)
Fixpoint retry_loop (method : callable W) (params : loc)
    (retries sleep_time : Z) (xs : list Z) (lc : locals) : M W locals :=
  match xs with
  | [] => mret lc
  | x :: rest =>
      lc1 ← attempt method params lc;
      match str_error lc1 with
      | Unbound => raise (UnboundLocalError "str_error")
      | Bound None => mret lc1                                  (* break *)
      | Bound (Some e) =>                      (* an exception object is truthy *)
          if (x <? retries)%Z
          then emit (EvSleep sleep_time);;
               retry_loop method params retries sleep_time rest lc1
          else raise e
      end
  end.

Definition call_fmp (method : callable W) (params : loc)
    (retries sleep_time : Z) : M W pyval :=
  d ← load params;
  (if negb (truthy (default VNone (d !! "apikey")))
   then store params (<["apikey" := VStr FMP_API_KEY]> d)
   else mret ());;
  lc ← retry_loop method params retries sleep_time
         (seqZ 0 retries) (mkLocals Unbound Unbound);
  match res lc with
  | Unbound => raise (UnboundLocalError "res")
  | Bound v => mret v
  end.

(** Lines 85-95: the [for ix, symbol in enumerate(symbols)] loop. *)
Fixpoint fetch_loop `{!Externals W} (items : list (nat * string))
    (n_symbols : nat) (start_str end_str : string) (show_progress : bool)
    (hist : list (string * pyval)) : M W (list (string * pyval)) :=
  match items with
  | [] => mret hist
  | (ix, symbol) :: rest =>
      (if show_progress
       then emit (EvLogInfo (pretty ix +:+ "/" +:+ pretty n_symbols))
       else mret ());;
      params ← alloc (<["from_date" := VStr start_str]>
                      (<["to_date" := VStr end_str]>
                       {["symbol" := VStr symbol]}));
      price_history ← call_fmp historical_price_full params
                        FMP_API_RETRIES FMP_API_SLEEP_TIME;
      if negb (truthy price_history)
      then fetch_loop rest n_symbols start_str end_str show_progress hist
      else
        price_history ← lift (subscript price_history "historical");
        fetch_loop rest n_symbols start_str end_str show_progress
          (assoc_set hist symbol price_history)
  end.

Definition get_stocks_history `{!Externals W} (symbols : list string)
    (start end_ : Z) (show_progress : bool) : M W (list (string * pyval)) :=
  let end_str := strftime end_ FMP_DATE_FORMAT in
  let start_str := strftime start FMP_DATE_FORMAT in
  fetch_loop (zip (seq 0 (length symbols)) symbols) (length symbols)
    start_str end_str show_progress [].

End Fmp.
End Fmp.
Export Fmp.

(** ** ingest.py *)

Module Ingest.

Section Ingest.
Context {W : Type} `{!Externals W}.

(** Lines 24-29: group by [key], take the minimum and the maximum of [col]
    in each group, and lay the result out flat: one row per group under the
    default index, with columns [key], [start_date] and [end_date]. *)
Definition agg_min_max (key col : string) (data : DataFrame)
  : outcome DataFrame :=
  if negb (bool_decide (key ∈ columns data)) then Raise (KeyError key)
  else if negb (bool_decide (col ∈ columns data)) then Raise (KeyError col)
  else
    let keys := group_keys key data in
    Ret (mkDataFrame [None] [key; "start_date"; "end_date"]
           (zip (RangeIndex (length keys))
              ((λ k, <[key := k]>
                     (<["start_date" := cell_min (group_column key k col data)]>
                      {["end_date" := cell_max (group_column key k col data)]}))
                 <$> keys))).

Definition gen_asset_metadata (data : DataFrame) (show_progress : bool)
    (exchange : string) : M W DataFrame :=
  (if show_progress then emit (EvLogInfo "Generating asset metadata.")
   else mret ());;
  data ← lift (agg_min_max "symbol" "date" data);
  let data := set_column_scalar "exchange" (Str exchange) data in
  end_date ← lift (get_column "end_date" data);
  auto_close ← lift (map_outcome (add_timedelta (Timedelta_days 1)) end_date);
  lift (set_column "auto_close_date" auto_close data).

Definition cols_to_keep : list string :=
  ["open"; "high"; "low"; "close"; "volume"].

Definition _format_price_history (price_history : DataFrame)
  : outcome DataFrame :=
  (* use adjClose *)
  adj ← get_column "adjClose" price_history;
  price_history ← set_column "close" adj price_history;
  (* remove extra cols *)
  let cols_to_remove :=
    elements (list_to_set (columns price_history) ∖ list_to_set cols_to_keep
              : gset string) in
  price_history ← drop_columns cols_to_remove price_history;
  (* some assets in FMP don't have volume data *)
  if negb (bool_decide ("volume" ∈ columns price_history))
  then Ret (set_column_scalar "volume" (Num 0) price_history)
  else Ret price_history.

(** The filter of lines 70-71: the rows whose label did not occur before. *)
Definition drop_duplicated_index (price_history : DataFrame) : DataFrame :=
  getitem_mask (negb <$> duplicated (index price_history)) price_history.

Definition _set_dates_for_calendar (price_history : DataFrame)
    (calendar : TradingCalendar) (start end_ : Z) (symbol_map : Series)
  : outcome DataFrame :=
  (* get bundle calendar sessions *)
  let sessions := sessions_in_range calendar start end_ in
  (* set multiindex to date and symbol *)
  price_history ← set_index ["date"; "symbol"] price_history;
  price_history ← sort_index "date" price_history;
  (* FMP sometimes returns a date twice for the same symbol *)
  let price_history := drop_duplicated_index price_history in
  let indices :=
    date ← sessions; symbol ← symbol_map.*2; [[Time date; symbol]] in
  reindex indices price_history.

Fixpoint convert_loop (raw_price : list (string * pyval))
    (symbols : list string) (all_history : DataFrame) : outcome DataFrame :=
  match symbols with
  | [] => Ret all_history
  | symbol :: rest =>
      price_history ← default (Raise (KeyError symbol))
                        (Ret <$> assoc_get raw_price symbol);
      price_history_df ← DataFrame_of_records price_history;
      let price_history_df :=
        set_column_scalar "symbol" (Str symbol) price_history_df in
      dates ← getattr_column "date" price_history_df;
      dates ← map_outcome to_datetime_utc dates.*2;
      price_history_df ← set_column "date" dates price_history_df;
      convert_loop raw_price rest (append all_history price_history_df)
  end.

Definition convert_price_to_df (raw_price : list (string * pyval))
  : outcome DataFrame :=
  convert_loop raw_price raw_price.*1 (mkDataFrame [None] [] []).

(** The generator's [for] loop: what it yields, and the exception that ends
    it if one does. *)
Fixpoint yield_loop (data : DataFrame) (items : Series)
  : list (label * DataFrame) * option exn :=
  match items with
  | [] => ([], None)
  | (asset_id, symbol) :: rest =>
      match xs symbol "symbol" data with
      | Raise e => ([], Some e)
      | Ret df => let '(ys, e) := yield_loop data rest in ((asset_id, df) :: ys, e)
      end
  end.

Definition parse_pricing_and_vol (data : DataFrame) (calendar : TradingCalendar)
    (start end_ : Z) (symbol_map : Series)
  : list (label * DataFrame) * option exn :=
  match data ← _set_dates_for_calendar data calendar start end_ symbol_map;
        _format_price_history data with
  | Raise e => ([], Some e)
  | Ret data => yield_loop data symbol_map
  end.

(** [pd.Timestamp.now(tz="UTC")] *)
Definition now_utc : M W Z := λ s, (Ret (Timestamp_now (world s)), s, []).

Definition splits_columns : list string := ["sid"; "ratio"; "effective_date"].
Definition dividends_columns : list string :=
  ["sid"; "record_date"; "declared_date"; "pay_date"; "amount"; "ex_date"].

(** Of the arguments zipline passes, [environ], [minute_bar_writer],
    [start_session], [end_session], [cache] and [output_dir] are unused. *)
Definition ingest_fmp (asset_db_writer : DataFrame → DataFrame → sink W)
    (daily_bar_writer : list (label * DataFrame) * option exn → bool → sink W)
    (adjustment_writer : DataFrame → DataFrame → sink W)
    (calendar : TradingCalendar) (show_progress : bool) : M W unit :=
  let exchange := ["US Equities"; "NYSE"; "US"] in
  (* set custom period here *)
  let period := 100%Z in
  (* set custom list of stocks here *)
  let stocks := ["QQQ"; "SPY"] in
  (* fetch and process price data *)
  end_ ← now_utc;
  let start := (end_ - Timedelta_days period)%Z in
  raw_data ← get_stocks_history stocks start end_ true;
  raw_data_df ← lift (convert_price_to_df raw_data);
  (* write assets and exchanges *)
  symbol_date ← lift (select_columns ["symbol"; "date"] raw_data_df);
  asset_metadata ← gen_asset_metadata symbol_date show_progress
                     (default "" (exchange !! 0%nat));
  let exchanges :=
    mkDataFrame [None] ["exchange"; "canonical_name"; "country_code"]
      (zip (RangeIndex 1)
         [list_to_map (zip ["exchange"; "canonical_name"; "country_code"]
                         (Str <$> exchange))]) in
  call_sink (EvAssetWrite asset_metadata exchanges)
    (asset_db_writer asset_metadata exchanges);;
  (* write price data *)
  symbol_map ← lift (getattr_column "symbol" asset_metadata);
  let parsed_price :=
    parse_pricing_and_vol raw_data_df calendar start end_ symbol_map in
  call_sink (EvDailyBarWrite parsed_price show_progress)
    (daily_bar_writer parsed_price show_progress);;
  (* write adjusments *)
  let splits_df := empty_frame splits_columns in
  let dividends_df := empty_frame dividends_columns in
  call_sink (EvAdjustmentWrite splits_df dividends_df)
    (adjustment_writer splits_df dividends_df).

End Ingest.
End Ingest.
Export Ingest.

(** ** Notions used to state the properties *)

Module Spec.

(** The dictionary [params] as [call_fmp] leaves it. *)
Definition with_apikey (d : gmap string pyval) : gmap string pyval :=
  if truthy (default VNone (d !! "apikey")) then d
  else <["apikey" := VStr FMP_API_KEY]> d.

Definition is_invoke (ev : event) : bool :=
  match ev with EvInvoke _ _ => true | _ => false end.

Definition is_sleep (ev : event) : bool :=
  match ev with EvSleep _ => true | _ => false end.

(** How many times a run called the API method. *)
Definition invocations (evs : list event) : nat :=
  length (List.filter is_invoke evs).

(** The API calls of a run that returned: the symbol asked for and the
    response. *)
Definition response (ev : event) : option (string * pyval) :=
  match ev with
  | EvInvoke kwargs (Ret v) =>
      match kwargs !! "symbol" with
      | Some (VStr symbol) => Some (symbol, v)
      | _ => None
      end
  | _ => None
  end.

Definition responses (evs : list event) : list (string * pyval) :=
  omap response evs.

Definition call_returned (ev : event) : Prop :=
  match ev with EvInvoke _ (Raise _) => False | _ => True end.

(** Every event of a computation satisfies [P], whatever the state. *)
Definition emits {W A} (P : event → Prop) (m : M W A) : Prop :=
  ∀ s, Forall P (m s).2.

(** The adjustment writer is only ever handed frames without rows. *)
Definition adjustments_empty (ev : event) : Prop :=
  match ev with
  | EvAdjustmentWrite splits dividends =>
      splits = empty_frame splits_columns ∧
      dividends = empty_frame dividends_columns
  | _ => True
  end.

(** [m] is the least, resp. greatest, element of [l]. *)
Definition is_min (m : Z) (l : list Z) : Prop := m ∈ l ∧ ∀ t, t ∈ l → (m ≤ t)%Z.
Definition is_max (m : Z) (l : list Z) : Prop := m ∈ l ∧ ∀ t, t ∈ l → (t ≤ m)%Z.

(** The dates observed for a symbol in a table of (symbol, date) rows. *)
Definition dates_of (symbol : string) (data : DataFrame) : list Z :=
  omap (λ r : row, if bool_decide (r.2 !!! "symbol" = Str symbol)
                   then match r.2 !!! "date" with Time t => Some t | _ => None end
                   else None) (rows data).

(** The heap once [call_fmp] has injected the key into the dictionary at
    [p]. *)
Definition heap_with_apikey {W} (s : state W) (p : loc)
  : gmap loc (gmap string pyval) :=
  let d := default ∅ (heap s !! p) in
  if truthy (default VNone (d !! "apikey")) then heap s
  else <[p := with_apikey d]> (heap s).

(** The rows the duplicate filter keeps, started with some labels already
    seen. *)
Definition keep_first (seen : list label) (rs : list row) : list row :=
  mask_rows (negb <$> duplicated_from seen rs.*1) rs.

(** A table of (symbol, date) rows: each row carries a symbol name and a
    timestamp. *)
Definition symbol_date_rows (data : DataFrame) : Prop :=
  ∀ r : row, r ∈ rows data →
    ∃ sym t, r.2 !!! "symbol" = Str sym ∧ r.2 !!! "date" = Time t.

(** The day after, as the 64-bit addition of line 32 computes it. *)
Definition next_day (c : cell) : cell :=
  match c with
  | Time t => datetime64 (int64_wrap (t + Timedelta_days 1))
  | c => c
  end.

(** Every timestamp in the [date] column is a 64-bit one, [bound] at the
    latest. *)
Definition dates_up_to (bound : Z) (data : DataFrame) : Prop :=
  ∀ (r : row) t, r ∈ rows data → r.2 !!! "date" = Time t →
    (int64_min < t ≤ bound)%Z.

(** The last timestamp to which a day can be added. *)
Definition last_day : Z := (int64_max - Timedelta_days 1)%Z.



(** The row that lines 24-32 compute for the group of [k]. *)
Definition metadata_row (data : DataFrame) (exchange : string) (k : cell)
  : gmap string cell :=
  let hi := cell_max (group_column "symbol" k "date" data) in
  <["auto_close_date" := next_day hi]>
  (<["exchange" := Str exchange]>
   (<["symbol" := k]>
    (<["start_date" := cell_min (group_column "symbol" k "date" data)]>
     {["end_date" := hi]}))).

End Spec.
Export Spec.

(** ** Sample inputs *)

Module Examples.

Definition num (z : Z) : Qc := Q2Qc (inject_Z z).

(** An endpoint that is down, one that answers with nothing, and one that
    answers with three daily bars, the last repeating a date. *)
Definition failing_api : callable nat :=
  λ _ w, (Raise (Exception "HTTP 503"), S w).

Definition empty_api : callable nat := λ _ w, (Ret (VDict []), S w).

Definition bar (date : string) (open_ adj : Z) : pyval :=
  VDict [("date", VStr date); ("open", VNum (num open_));
         ("close", VNum (num open_)); ("adjClose", VNum (num adj));
         ("volume", VNum (num 100))].

Definition bars_api : callable nat :=
  λ kwargs w,
    (Ret (VDict [("symbol", default VNone (kwargs !! "symbol"));
                 ("historical", VList [bar "2021-01-05" 10 9;
                                       bar "2021-01-04" 8 7;
                                       bar "2021-01-05" 11 10])]), S w).

Definition parse_day (s : string) : option Z :=
  if String.eqb s "2021-01-04" then Some 18631%Z
  else if String.eqb s "2021-01-05" then Some 18632%Z
  else if String.eqb s "2021-01-06" then Some 18633%Z
  else None.

Definition sample_to_datetime (c : cell) : outcome cell :=
  match c with
  | Str s =>
      match parse_day s with
      | Some d => Ret (Time (Timedelta_days d))
      | None => Raise (ValueError "Unknown string format")
      end
  | _ => Raise (TypeError "not convertible to datetime")
  end.

Definition sample_externals (api : callable nat) : Externals nat := {|
  historical_price_full := api;
  Timestamp_now := λ _, Timedelta_days 18640;
  strftime := λ t _, pretty (t / Timedelta_days 1)%Z;
  to_datetime_utc := sample_to_datetime
|}.

Definition sample_calendar : TradingCalendar :=
  mkCalendar (λ _ _, Timedelta_days <$> [18631; 18632; 18633]%Z).

Definition ok_sink : sink nat := λ w, (Ret (), w).

(** A state in which the caller holds one [params] dictionary at [1]. *)
Definition sample_state (d : gmap string pyval) : state nat :=
  mkState {[1%positive := d]} 0.

Definition sample_params : gmap string pyval := {["symbol" := VStr "QQQ"]}.

Definition cells (l : list (string * cell)) : gmap string cell := list_to_map l.

(** A flattened table: two symbols, QQQ with a repeated date. *)
Definition sample_prices : DataFrame :=
  mkDataFrame [None] ["date"; "open"; "adjClose"; "symbol"]
    (zip (RangeIndex 4)
       [cells [("date", Time (Timedelta_days 18632)); ("open", Num (num 10));
               ("adjClose", Num (num 9)); ("symbol", Str "QQQ")];
        cells [("date", Time (Timedelta_days 18631)); ("open", Num (num 8));
               ("adjClose", Num (num 7)); ("symbol", Str "QQQ")];
        cells [("date", Time (Timedelta_days 18632)); ("open", Num (num 11));
               ("adjClose", Num (num 10)); ("symbol", Str "QQQ")];
        cells [("date", Time (Timedelta_days 18632)); ("open", Num (num 20));
               ("adjClose", Num (num 19)); ("symbol", Str "SPY")]]).

Definition sample_symbol_map : Series :=
  zip (RangeIndex 2) [Str "QQQ"; Str "SPY"].

End Examples.
Export Examples.

(** ** Further notions, for the properties beyond the retry loop *)

Module Notions.

(** The dictionary display of lines 87-90. *)
Definition request_params (start_str end_str symbol : string)
  : gmap string pyval :=
  <["from_date" := VStr start_str]>
    (<["to_date" := VStr end_str]> {["symbol" := VStr symbol]}).

Definition is_log_info (ev : event) : bool :=
  match ev with EvLogInfo _ => true | _ => false end.

(** An API call of [get_stocks_history] for one of [symbols], over the
    window given by the two date strings, with the default key. *)
Definition well_formed_request (start_str end_str : string)
    (symbols : list string) (ev : event) : Prop :=
  match ev with
  | EvInvoke kwargs _ =>
      ∃ symbol, symbol ∈ symbols ∧
        kwargs = <["apikey" := VStr FMP_API_KEY]>
                   (request_params start_str end_str symbol)
  | _ => True
  end.

(** The rows of a price table once [date] and [symbol] have become its
    index (line 66): the label is the pair of the two cells, the two
    columns are gone. *)
Definition labelled_rows (price_history : DataFrame) : list row :=
  (λ r : row, ([r.2 !!! "date"; r.2 !!! "symbol"],
               filter (λ kv : string * cell, kv.1 ∉ ["date"; "symbol"]) r.2))
    <$> rows price_history.

(** The target labels of line 73. *)
Definition calendar_labels (sessions : list Z) (symbol_map : Series)
  : list label :=
  date ← sessions; symbol ← symbol_map.*2; [[Time date; symbol]].

Definition cell_le (a b : cell) : Prop := cell_leb a b = true.




(** The three sinks of [ingest_fmp], and the sinks a run called, in order. *)
Inductive writer :=
| AssetDBWriter
| DailyBarWriter
| AdjustmentWriter.

Definition writer_of (ev : event) : option writer :=
  match ev with
  | EvAssetWrite _ _ => Some AssetDBWriter
  | EvDailyBarWrite _ _ => Some DailyBarWriter
  | EvAdjustmentWrite _ _ => Some AdjustmentWriter
  | _ => None
  end.

Definition writers_called (evs : list event) : list writer :=
  omap writer_of evs.

(** The symbols and the period that [ingest_fmp] has built in. *)
Definition stocks : list string := ["QQQ"; "SPY"].
Definition period : Z := 100.

(** Whether a response of the API is truthy, when the call returned. *)
Definition truthy_response {W} (res : outcome pyval * W) : option bool :=
  match res.1 with
  | Ret v => Some (truthy v)
  | Raise _ => None
  end.

(** A table whose last date, 2262-04-11, is the last day a 64-bit
    timestamp can hold. *)
Definition late_prices : DataFrame :=
  mkDataFrame [None] ["symbol"; "date"]
    (zip (RangeIndex 2)
       [cells [("symbol", Str "QQQ"); ("date", Time (Timedelta_days 18631))];
        cells [("symbol", Str "QQQ"); ("date", Time (Timedelta_days 106751))]]).

End Notions.
Export Notions.

(** * Properties *)

Ltac unfold_M :=
  unfold mbind, M_bind, mret, M_ret, raise, emit, lift, load, store, alloc,
    invoke, call_sink, try_except in *.

(** ** The retrying client *)

Section CallFmp.
Context {W : Type}.
Implicit Types (method : callable W) (s : state W) (p : loc) (d : gmap string pyval).

Lemma heap_with_apikey_lookup s p d :
  heap s !! p = Some d → heap_with_apikey s p !! p = Some (with_apikey d).
Proof.
  intros Hp. unfold heap_with_apikey, with_apikey. rewrite Hp. cbn.
  destruct (truthy _); [done | by rewrite lookup_insert_eq].
Qed.

Lemma heap_with_apikey_frame s p q :
  q ≠ p → heap_with_apikey s p !! q = heap s !! q.
Proof.
  intros Hq. unfold heap_with_apikey.
  destruct (truthy _); [done | by rewrite lookup_insert_ne].
Qed.

(** With an empty range the loop body never runs and [res] stays unbound. *)
Lemma call_fmp_no_attempt method p retries sleep_time s :
  (retries ≤ 0)%Z →
  call_fmp method p retries sleep_time s =
    (Raise (UnboundLocalError "res"),
     mkState (heap_with_apikey s p) (world s), []).
Proof.
  intros Hle. unfold call_fmp, heap_with_apikey, with_apikey.
  replace (seqZ 0 retries) with (@nil Z)
    by (unfold seqZ; replace (Z.to_nat retries) with 0%nat by lia; done).
  unfold_M. cbn.
  destruct (truthy (default VNone (default ∅ (heap s !! p) !! "apikey")));
    cbn; by destruct s.
Qed.

(** With a non-empty range everything is decided by the first attempt: a
    result breaks out of the loop, an exception that the handler catches
    leaves [str_error] deleted, so that the test of line 47 fails. *)
Lemma call_fmp_first_attempt method p retries sleep_time s :
  (0 < retries)%Z →
  let kw := with_apikey (default ∅ (heap s !! p)) in
  let h := heap_with_apikey s p in
  call_fmp method p retries sleep_time s =
    match method kw (world s) with
    | (Ret v, w) => (Ret v, mkState h w, [EvInvoke kw (Ret v)])
    | (Raise e, w) =>
        if is_Exception e
        then (Raise (UnboundLocalError "str_error"), mkState h w,
              [EvInvoke kw (Raise e);
               EvLogError ("FMP Request failed. " +:+ exn_str e)])
        else (Raise e, mkState h w, [EvInvoke kw (Raise e)])
    end.
Proof.
  intros Hpos kw h. subst kw h.
  unfold call_fmp, heap_with_apikey, with_apikey.
  rewrite (seqZ_cons 0 retries) by lia.
  set (d := default ∅ (heap s !! p)).
  unfold_M. cbn [retry_loop]. unfold attempt. unfold_M. cbn. fold d.
  destruct (truthy (default VNone (d !! "apikey"))) eqn:Ht; cbn.
  - fold d. destruct (method d (world s)) as [[v|e] w]; cbn; [done|].
    destruct (is_Exception e); cbn; done.
  - rewrite lookup_insert_eq. cbn.
    destruct (method _ (world s)) as [[v|e] w]; cbn; [done|].
    destruct (is_Exception e); cbn; done.
Qed.

(** The [sleep] of line 49 is never reached. *)
Lemma call_fmp_never_sleeps method p retries sleep_time s :
  Forall (λ ev, is_sleep ev = false) (call_fmp method p retries sleep_time s).2.
Proof.
  destruct (decide (0 < retries)%Z) as [Hpos|Hle].
  - rewrite call_fmp_first_attempt by done.
    destruct (method _ (world s)) as [[v|e] w]; [|destruct (is_Exception e)];
      cbn; by repeat constructor.
  - rewrite call_fmp_no_attempt by lia. constructor.
Qed.

(** An exception of the callable that the handler catches never reaches the
    caller: one attempt, then the [UnboundLocalError] of line 47. *)
Lemma call_fmp_caught_exception method p retries sleep_time s e w :
  (0 < retries)%Z →
  method (with_apikey (default ∅ (heap s !! p))) (world s) = (Raise e, w) →
  is_Exception e = true →
  (call_fmp method p retries sleep_time s).1.1
    = Raise (UnboundLocalError "str_error") ∧
  invocations (call_fmp method p retries sleep_time s).2 = 1%nat.
Proof.
  intros Hpos Hm He. rewrite call_fmp_first_attempt by done.
  by rewrite Hm, He.
Qed.

(** C3: whatever the method does and however the call ends, [call_fmp]
    invokes the method at most [retries] times ([retries] read as a count:
    when it is zero or below, the method is not invoked at all). *)
Theorem call_fmp_invocations_le_retries method p retries sleep_time s :
  (invocations (call_fmp method p retries sleep_time s).2 ≤ Z.to_nat retries)%nat.
Proof.
  destruct (decide (0 < retries)%Z) as [Hpos|Hle].
  - rewrite call_fmp_first_attempt by done.
    destruct (method _ (world s)) as [[v|e] w]; [|destruct (is_Exception e)];
      cbn; lia.
  - rewrite call_fmp_no_attempt by lia. cbn. lia.
Qed.

(** C9: [call_fmp] writes into the dictionary it was handed.  When the
    caller's dictionary has no ["apikey"], or a falsy one, then after the
    call (however it ends) that same dictionary binds ["apikey"] to the
    default key and is otherwise as before; when it has a truthy
    ["apikey"] the dictionary is unchanged.  No other dictionary is
    touched. *)
Theorem call_fmp_injects_apikey_in_place method p retries sleep_time s d :
  heap s !! p = Some d →
  let s' := (call_fmp method p retries sleep_time s).1.2 in
  (truthy (default VNone (d !! "apikey")) = false →
     heap s' !! p = Some (<["apikey" := VStr FMP_API_KEY]> d)) ∧
  (truthy (default VNone (d !! "apikey")) = true → heap s' !! p = Some d) ∧
  (∀ q, q ≠ p → heap s' !! q = heap s !! q).
Proof.
  intros Hp s'.
  assert (heap s' = heap_with_apikey s p) as ->.
  { subst s'. destruct (decide (0 < retries)%Z) as [Hpos|Hle].
    - rewrite call_fmp_first_attempt by done.
      destruct (method _ (world s)) as [[v|e] w]; [|destruct (is_Exception e)];
        done.
    - by rewrite call_fmp_no_attempt by lia. }
  rewrite (heap_with_apikey_lookup s p d Hp). unfold with_apikey.
  split_and!.
  - by intros ->.
  - by intros ->.
  - intros q Hq. by apply heap_with_apikey_frame.
Qed.

(** C10: with [retries = 0] the method is never invoked (the run has no
    event at all) and the call ends in the [UnboundLocalError] of
    [return res]. *)
Theorem call_fmp_zero_retries method p sleep_time s :
  ∃ s', call_fmp method p 0 sleep_time s = (Raise (UnboundLocalError "res"), s', [])
        ∧ world s' = world s.
Proof.
  eexists. rewrite call_fmp_no_attempt by lia. done.
Qed.

End CallFmp.

Lemma call_fmp_injects_apikey_in_place_witness :
  let s' := (call_fmp bars_api 1%positive 2 70 (sample_state sample_params)).1.2 in
  heap s' !! 1%positive
    = Some (<["apikey" := VStr FMP_API_KEY]> sample_params).
Proof.
  intros s'.
  apply (call_fmp_injects_apikey_in_place bars_api 1%positive 2 70
           (sample_state sample_params) sample_params);
    reflexivity.
Defined.

(** C1, at an endpoint that fails every time: the first attempt is logged,
    then line 47 reads the deleted [str_error].  There is no sleep and no
    second attempt, and what reaches the caller is an [UnboundLocalError],
    not the exception of the callable. *)
Theorem call_fmp_failure_is_unbound_local :
  call_fmp failing_api 1%positive 2 70 (sample_state sample_params) =
    (Raise (UnboundLocalError "str_error"),
     mkState {[1%positive := <["apikey" := VStr FMP_API_KEY]> sample_params]} 1,
     [EvInvoke (<["apikey" := VStr FMP_API_KEY]> sample_params)
        (Raise (Exception "HTTP 503"));
      EvLogError "FMP Request failed. HTTP 503"]).
Proof. vm_compute. reflexivity. Qed.

(** ** The history fetch *)

Section AssocSet.
Implicit Types (h : list (string * pyval)).

Lemma assoc_set_keys h k v sym :
  sym ∈ (assoc_set h k v).*1 ↔ sym = k ∨ sym ∈ h.*1.
Proof.
  induction h as [|[k' x] h IH]; cbn.
  - rewrite list_elem_of_singleton, elem_of_nil. tauto.
  - destruct (String.eqb_spec k' k) as [->|Hne]; cbn;
      rewrite !elem_of_cons; [tauto | rewrite IH; tauto].
Qed.

Lemma assoc_set_NoDup h k v : NoDup h.*1 → NoDup (assoc_set h k v).*1.
Proof.
  induction h as [|[k' x] h IH]; cbn; intros Hnd.
  - apply NoDup_singleton.
  - apply NoDup_cons in Hnd as [Hnotin Hnd].
    destruct (String.eqb_spec k' k) as [->|Hne]; cbn.
    + by apply NoDup_cons.
    + apply NoDup_cons. split; [|by apply IH].
      rewrite assoc_set_keys. intros [?|?]; by subst.
Qed.

Lemma assoc_set_entries h k v a b :
  (a, b) ∈ assoc_set h k v → (a, b) = (k, v) ∨ (a, b) ∈ h.
Proof.
  induction h as [|[k' x] h IH]; cbn.
  - rewrite list_elem_of_singleton. tauto.
  - destruct (String.eqb_spec k' k) as [->|Hne];
      rewrite !elem_of_cons; [tauto | intros [?|?]; [tauto | destruct IH; tauto]].
Qed.
End AssocSet.

Section Fetch.
Context {W : Type} `{!Externals W}.

Lemma request_symbol ss es symbol :
  with_apikey (<["from_date" := VStr ss]>
               (<["to_date" := VStr es]> {["symbol" := VStr symbol]}))
    !! "symbol" = Some (VStr symbol).
Proof.
  unfold with_apikey.
  rewrite !lookup_insert_ne, lookup_singleton_ne by done. cbn.
  by rewrite !lookup_insert_ne, lookup_singleton_eq by done.
Qed.

Lemma responses_app l1 l2 : responses (l1 ++ l2) = responses l1 ++ responses l2.
Proof. apply omap_app. Qed.

(** What a run of the loop that returns leaves in [hist]. *)
Lemma fetch_loop_entries items n ss es sp hist0 (s : state W) hist s' evs :
  fetch_loop items n ss es sp hist0 s = (Ret hist, s', evs) →
  (responses evs).*1 = items.*2 ∧
  (NoDup hist0.*1 → NoDup hist.*1) ∧
  (∀ sym, sym ∈ hist.*1 ↔
      sym ∈ hist0.*1 ∨ ∃ v, (sym, v) ∈ responses evs ∧ truthy v = true) ∧
  (∀ sym h, (sym, h) ∈ hist →
      (sym, h) ∈ hist0 ∨
      ∃ v, (sym, v) ∈ responses evs ∧ truthy v = true ∧
           subscript v "historical" = Ret h).
Proof.
  unfold responses. revert hist0 s evs.
  induction items as [|[ix symbol] rest IH]; intros hist0 s evs.
  - cbn. unfold_M. intros [= -> -> <-]. cbn. split_and!; [done|done| |by left].
    intros sym. split; [by left|]. intros [?|(v & Hv & _)]; [done|].
    by apply elem_of_nil in Hv.
  - cbn [fetch_loop]. unfold_M.
    set (log := if sp then _ else _).
    assert (∃ l, log s = (Ret (), s, l) ∧ omap response l = []) as (l & -> & Hl).
    { subst log. destruct sp; eexists; split; reflexivity. }
    cbn -[call_fmp fetch_loop].
    rewrite call_fmp_first_attempt by done.
    cbn [heap world]. rewrite lookup_insert_eq. cbn [default].
    pose proof (request_symbol ss es symbol) as Hsym.
    set (kw := with_apikey _) in *. clearbody kw.
    destruct (historical_price_full kw (world s)) as [[v|e] w1];
      [|destruct (is_Exception e); cbn; intros [=]].
    destruct (truthy v) eqn:Hv; cbn -[fetch_loop].
    + destruct (subscript v "historical") as [h|e] eqn:Hh; cbn -[fetch_loop];
        [|intros [=]].
      destruct (fetch_loop rest _ _ _ _ _ _) as [[r s2] t2] eqn:Hrec.
      intros [= -> -> <-]. apply IH in Hrec as (H1 & H2 & H3 & H4).
      rewrite !omap_app, Hl. cbn. rewrite Hsym. cbn.
      split_and!.
      * by rewrite H1.
      * intros Hnd. by apply H2, assoc_set_NoDup.
      * intros sym. rewrite H3, assoc_set_keys. split.
        -- intros [[->|?]|(v' & Hv' & Ht)]; [right|by left|right].
           ++ exists v. split; [apply elem_of_cons; by left|done].
           ++ exists v'. split; [apply elem_of_cons; by right|done].
        -- intros [?|(v' & Hv' & Ht)]; [left; by right|].
           apply elem_of_cons in Hv' as [[= -> ->]|Hv']; [left; by left|].
           right. by exists v'.
      * intros sym h' Hin. apply H4 in Hin as [Hin|(v' & Hv' & Ht & Hs)].
        -- apply assoc_set_entries in Hin as [[= -> ->]|Hin]; [right|by left].
           exists v. split_and!; [apply elem_of_cons; by left|done|done].
        -- right. exists v'. split_and!; [apply elem_of_cons; by right|done|done].
    + destruct (fetch_loop rest _ _ _ _ _ _) as [[r s2] t2] eqn:Hrec.
      intros [= -> -> <-]. apply IH in Hrec as (H1 & H2 & H3 & H4).
      rewrite !omap_app, Hl. cbn. rewrite Hsym. cbn.
      split_and!.
      * by rewrite H1.
      * done.
      * intros sym. rewrite H3. split.
        -- intros [?|(v' & Hv' & Ht)]; [by left|right].
           exists v'. split; [apply elem_of_cons; by right|done].
        -- intros [?|(v' & Hv' & Ht)]; [by left|].
           apply elem_of_cons in Hv' as [[= -> ->]|Hv']; [congruence|].
           right. by exists v'.
      * intros sym h' Hin. apply H4 in Hin as [Hin|(v' & Hv' & Ht & Hs)]; [by left|].
        right. exists v'. split_and!; [apply elem_of_cons; by right|done|done].
Qed.

(** When no API call raised, the loop can only fail at line 94. *)
Lemma fetch_loop_raises items n ss es sp hist0 (s : state W) e s' evs :
  fetch_loop items n ss es sp hist0 s = (Raise e, s', evs) →
  Forall call_returned evs →
  ∃ sym v, (sym, v) ∈ responses evs ∧ truthy v = true ∧
           subscript v "historical" = Raise e.
Proof.
  unfold responses. revert hist0 s evs.
  induction items as [|[ix symbol] rest IH]; intros hist0 s evs.
  - cbn. unfold_M. intros [=].
  - cbn [fetch_loop]. unfold_M.
    set (log := if sp then _ else _).
    assert (∃ l, log s = (Ret (), s, l) ∧ omap response l = []) as (l & -> & Hl).
    { subst log. destruct sp; eexists; split; reflexivity. }
    cbn -[call_fmp fetch_loop].
    rewrite call_fmp_first_attempt by done.
    cbn [heap world]. rewrite lookup_insert_eq. cbn [default].
    pose proof (request_symbol ss es symbol) as Hsym.
    set (kw := with_apikey _) in *. clearbody kw.
    destruct (historical_price_full kw (world s)) as [[v|e'] w1].
    2:{ destruct (is_Exception e'); cbn; intros [= <- <- <-] Hall;
          apply Forall_app in Hall as [_ Hall];
          by apply Forall_cons in Hall as [? _]. }
    destruct (truthy v) eqn:Hv; cbn -[fetch_loop].
    + destruct (subscript v "historical") as [h|e'] eqn:Hh; cbn -[fetch_loop].
      * destruct (fetch_loop rest _ _ _ _ _ _) as [[r s2] t2] eqn:Hrec.
        intros [= -> -> <-] Hall.
        apply Forall_app in Hall as [_ Hall]. apply Forall_cons in Hall as [_ Hall].
        destruct (IH _ _ _ Hrec Hall) as (sym & v' & Hin & Ht & Hs).
        exists sym, v'. rewrite !omap_app, Hl. cbn. rewrite Hsym.
        split_and!; [apply elem_of_cons; by right|done|done].
      * intros [= <- <- <-] _. exists symbol, v.
        rewrite !omap_app, Hl. cbn. rewrite Hsym.
        split_and!; [apply elem_of_cons; by left|done|done].
    + destruct (fetch_loop rest _ _ _ _ _ _) as [[r s2] t2] eqn:Hrec.
      intros [= -> -> <-] Hall.
      apply Forall_app in Hall as [_ Hall]. apply Forall_cons in Hall as [_ Hall].
      destruct (IH _ _ _ Hrec Hall) as (sym & v' & Hin & Ht & Hs).
      exists sym, v'. rewrite !omap_app, Hl. cbn. rewrite Hsym.
      split_and!; [apply elem_of_cons; by right|done|done].
Qed.

(** C2, as the code has it: when no API call raises, the method is called
    once per symbol of the list, in order, and the mapping returned has
    exactly one entry for each symbol that got a non-empty response, keyed
    by that symbol and holding the ["historical"] member of such a response;
    a symbol whose responses were all empty has no entry.  The only other
    way the function can end is the failed lookup of ["historical"] in a
    non-empty response. *)
Theorem get_stocks_history_entries symbols start end_ show_progress (s : state W) :
  let r := get_stocks_history symbols start end_ show_progress s in
  Forall call_returned r.2 →
  match r.1.1 with
  | Ret hist =>
      (responses r.2).*1 = symbols ∧
      NoDup hist.*1 ∧
      (∀ sym, sym ∈ hist.*1 ↔ ∃ v, (sym, v) ∈ responses r.2 ∧ truthy v = true) ∧
      (∀ sym h, (sym, h) ∈ hist →
         ∃ v, (sym, v) ∈ responses r.2 ∧ truthy v = true ∧
              subscript v "historical" = Ret h)
  | Raise e =>
      ∃ sym v, (sym, v) ∈ responses r.2 ∧ truthy v = true ∧
               subscript v "historical" = Raise e
  end.
Proof.
  intros r Hall. subst r. unfold get_stocks_history in *.
  destruct (fetch_loop _ _ _ _ _ _ _) as [[[hist|e] s'] evs] eqn:Hrun; cbn in *.
  - apply fetch_loop_entries in Hrun as (H1 & H2 & H3 & H4).
    unfold responses in *. split_and!.
    + rewrite H1. apply snd_zip. rewrite length_seq. lia.
    + apply H2. constructor.
    + intros sym. rewrite H3. split; [|by right].
      intros [Hin|?]; [by apply elem_of_nil in Hin|done].
    + intros sym h Hin. apply H4 in Hin as [Hin|?]; [by apply elem_of_nil in Hin|done].
  - eapply fetch_loop_raises in Hrun; done.
Qed.
End Fetch.

Lemma get_stocks_history_entries_witness :
  let r := get_stocks_history (Externals0 := sample_externals bars_api)
             ["QQQ"; "SPY"] 0 0 true (mkState ∅ 0) in
  Forall call_returned r.2 ∧
  ∃ hist, r.1.1 = Ret hist ∧
          (responses r.2).*1 = ["QQQ"; "SPY"] ∧ NoDup hist.*1.
Proof.
  intros r.
  assert (Hall : Forall call_returned r.2) by (vm_compute; repeat constructor).
  split; [exact Hall|].
  pose proof (get_stocks_history_entries (Externals0 := sample_externals bars_api)
                ["QQQ"; "SPY"] 0 0 true (mkState ∅ 0) Hall) as H.
  fold r in H.
  assert (Hr : ∃ hist, r.1.1 = Ret hist) by (eexists; vm_compute; reflexivity).
  destruct Hr as (hist & Hr). rewrite Hr in H.
  destruct H as (Hcalls & Hnd & _). by exists hist.
Defined.

(** C2 as stated fails where a response is empty: nothing raises, and the
    symbol asked for has no entry in the mapping returned. *)
Lemma get_stocks_history_skips_empty_response :
  let r := get_stocks_history (Externals0 := sample_externals empty_api)
             ["QQQ"] 0 0 true (mkState ∅ 0) in
  Forall call_returned r.2 ∧
  ∃ hist, r.1.1 = Ret hist ∧ "QQQ" ∈ ["QQQ"] ∧ "QQQ" ∉ hist.*1.
Proof.
  split.
  - vm_compute. repeat constructor.
  - exists []. split_and!; [vm_compute; reflexivity|by left|by intros ?%elem_of_nil].
Qed.
(** ** Deduplication and reindexing *)

Section Dedup.
Implicit Types (seen idx : list label) (rs : list row) (df : DataFrame).

(** The flags depend on the labels seen so far only as a set. *)
Lemma duplicated_from_ext seen1 seen2 idx :
  (∀ k, k ∈ seen1 ↔ k ∈ seen2) →
  duplicated_from seen1 idx = duplicated_from seen2 idx.
Proof.
  revert seen1 seen2. induction idx as [|k idx IH]; intros seen1 seen2 Heq; [done|].
  cbn. f_equal.
  - apply bool_decide_ext, Heq.
  - apply IH. intros k'. rewrite !elem_of_cons, Heq. done.
Qed.

Lemma length_duplicated_from seen idx :
  length (duplicated_from seen idx) = length idx.
Proof. revert seen. induction idx; intros; cbn; auto. Qed.

Lemma keep_first_cons seen r rs :
  keep_first seen (r :: rs) =
    if bool_decide (r.1 ∈ seen) then keep_first seen rs
    else r :: keep_first (r.1 :: seen) rs.
Proof.
  unfold keep_first. cbn. case_bool_decide as Hin; cbn; [|done].
  f_equal. f_equal. apply duplicated_from_ext.
  intros k. rewrite elem_of_cons. split; [by intros [->|?]|by right].
Qed.

Lemma keep_first_idemp seen rs :
  keep_first seen (keep_first seen rs) = keep_first seen rs.
Proof.
  revert seen. induction rs as [|r rs IH]; intros seen; [done|].
  rewrite keep_first_cons. case_bool_decide as Hin; [apply IH|].
  rewrite keep_first_cons, bool_decide_false by done. f_equal. apply IH.
Qed.

Lemma keep_first_sub seen rs r : r ∈ keep_first seen rs → r ∈ rs ∧ r.1 ∉ seen.
Proof.
  revert seen. induction rs as [|r' rs IH]; intros seen.
  - by intros ?%elem_of_nil.
  - rewrite keep_first_cons. case_bool_decide as Hin.
    + intros [? ?]%IH. split; [by apply elem_of_cons; right|done].
    + intros [->|[? Hn]%IH]%elem_of_cons.
      * split; [by apply elem_of_cons; left|done].
      * split; [by apply elem_of_cons; right|].
        intros ?. apply Hn, elem_of_cons. by right.
Qed.

Lemma keep_first_NoDup seen rs : NoDup (keep_first seen rs).*1.
Proof.
  revert seen. induction rs as [|r rs IH]; intros seen; [constructor|].
  rewrite keep_first_cons. case_bool_decide as Hin; [apply IH|].
  cbn. apply NoDup_cons. split; [|apply IH].
  intros (r' & Hr' & [_ Hn]%keep_first_sub)%list_elem_of_fmap.
  apply Hn. rewrite Hr'. by left.
Qed.

(** C4: the duplicate-index filter is idempotent: applied to its own output
    it returns that output unchanged. *)
Theorem drop_duplicated_index_idempotent df :
  drop_duplicated_index (drop_duplicated_index df) = drop_duplicated_index df.
Proof.
  unfold drop_duplicated_index, getitem_mask, duplicated, index. cbn. f_equal.
  apply (keep_first_idemp [] (rows df)).
Qed.

Lemma drop_duplicated_index_NoDup df : NoDup (index (drop_duplicated_index df)).
Proof. apply (keep_first_NoDup [] (rows df)). Qed.


Lemma length_comprehension {A B C} (f : A → B → C) (l : list A) (k : list B) :
  length (a ← l; b ← k; [f a b]) = length l * length k.
Proof.
  induction l as [|a l IH]; [done|].
  cbn. rewrite length_app, IH. f_equal.
  clear. induction k as [|b k IH]; [done|]. cbn. by rewrite IH.
Qed.

Lemma set_index_date_symbol df :
  "date" ∈ columns df → "symbol" ∈ columns df →
  ∃ df', set_index ["date"; "symbol"] df = Ret df' ∧
         index_names df' = [Some "date"; Some "symbol"].
Proof.
  intros Hd Hs. unfold set_index.
  rewrite !filter_cons, filter_nil.
  rewrite !decide_False by (intros Hn; by apply Hn).
  eexists. split; reflexivity.
Qed.

(** C5: for a table with a [date] and a [symbol] column (deduplicated or
    not: the function removes repeated labels itself), [N] sessions and [M]
    symbols, [_set_dates_for_calendar] returns a table whose labels are
    the (session, symbol) pairs, sessions outermost, and so has [N * M]
    rows. *)
Theorem _set_dates_for_calendar_rows price_history calendar start end_
    (symbol_map : Series) :
  "date" ∈ columns price_history → "symbol" ∈ columns price_history →
  ∃ out,
    _set_dates_for_calendar price_history calendar start end_ symbol_map = Ret out ∧
    index out = (date ← sessions_in_range calendar start end_;
                 symbol ← symbol_map.*2; [[Time date; symbol]]) ∧
    length (rows out) =
      length (sessions_in_range calendar start end_) * length symbol_map.
Proof.
  intros Hd Hs. unfold _set_dates_for_calendar.
  destruct (set_index_date_symbol price_history Hd Hs) as (df1 & -> & Hnames).
  cbn [mbind outcome_bind]. unfold sort_index. rewrite Hnames.
  cbn [level_position]. rewrite bool_decide_true by done.
  cbn [mbind outcome_bind]. unfold reindex. rewrite bool_decide_true by apply drop_duplicated_index_NoDup.
  eexists. split; [reflexivity|].
  unfold index. cbn. split.
  - rewrite <- list_fmap_compose. apply list_fmap_id.
  - by rewrite length_fmap, length_comprehension, length_fmap.
Qed.

End Dedup.

Lemma _set_dates_for_calendar_rows_witness :
  ∃ out,
    _set_dates_for_calendar sample_prices sample_calendar 0 0 sample_symbol_map
      = Ret out ∧
    length (rows out) = 3 * 2.
Proof.
  destruct (_set_dates_for_calendar_rows sample_prices sample_calendar 0 0
              sample_symbol_map) as (out & Hout & _ & Hlen).
  - vm_compute. apply list_elem_of_here.
  - vm_compute. do 3 apply list_elem_of_further. apply list_elem_of_here.
  - exists out. split; [exact Hout|exact Hlen].
Defined.
(** ** Formatting the price history *)

Section Format.
Implicit Types (df : DataFrame) (m : gmap string cell).

Lemma filter_none {A} (P : A → Prop) `{!∀ x, Decision (P x)} (l : list A) :
  (∀ x, x ∈ l → ¬ P x) → filter P l = [].
Proof.
  induction l as [|x l IH]; intros Hl; [done|].
  rewrite filter_cons, decide_False by (apply Hl; by left).
  apply IH. intros y Hy. apply Hl. by right.
Qed.

(** Dropping columns does not disturb a cell of a column that stays. *)
Lemma lookup_total_drop m (cols : list string) c :
  c ∉ cols → filter (λ kv : string * cell, kv.1 ∉ cols) m !!! c = m !!! c.
Proof.
  intros Hc. rewrite !lookup_total_alt, map_lookup_filter.
  destruct (m !! c) as [x|]; cbn; [|done].
  by rewrite option_guard_True.
Qed.

Lemma set_column_self c src df :
  set_column c ((λ r : row, r.2 !!! src) <$> rows df) df =
    Ret (mkDataFrame (index_names df)
           (if bool_decide (c ∈ columns df) then columns df else columns df ++ [c])
           ((λ r : row, (r.1, <[c := r.2 !!! src]> r.2)) <$> rows df)).
Proof.
  unfold set_column. rewrite bool_decide_true by by rewrite length_fmap.
  by rewrite zip_with_fmap_r, zip_with_diag.
Qed.

(** C7: when the table has an [adjClose] column, [_format_price_history]
    returns a table with a [close] column that is, row for row, the
    [adjClose] column of the input. *)
Theorem _format_price_history_close price_history :
  "adjClose" ∈ columns price_history →
  ∃ out adj,
    _format_price_history price_history = Ret out ∧
    get_column "adjClose" price_history = Ret adj ∧
    get_column "close" out = Ret adj.
Proof.
  intros Hadj. unfold _format_price_history.
  unfold get_column at 1. rewrite bool_decide_true by done.
  cbn [mbind outcome_bind]. rewrite set_column_self. cbn [mbind outcome_bind].
  set (cols1 := if bool_decide ("close" ∈ columns price_history) then _ else _).
  assert (Hclose : "close" ∈ cols1).
  { subst cols1. case_bool_decide; [done|]. apply elem_of_app. right. by left. }
  cbn [columns].
  set (cols_to_remove := elements _).
  assert (Hsub : ∀ c, c ∈ cols_to_remove → c ∈ cols1 ∧ c ∉ cols_to_keep).
  { intros c. subst cols_to_remove.
    rewrite elem_of_elements, elem_of_difference, !elem_of_list_to_set. done. }
  assert (Hkeep : "close" ∉ cols_to_remove).
  { intros [_ Hn]%Hsub. apply Hn. unfold cols_to_keep.
    do 3 apply list_elem_of_further. apply list_elem_of_here. }
  unfold drop_columns. cbn [columns rows index_names].
  rewrite filter_none by (intros c [? _]%Hsub Hn; by apply Hn).
  cbn [mbind outcome_bind columns].
  assert (Hin2 : "close" ∈ filter (λ c, c ∉ cols_to_remove) cols1)
    by by apply list_elem_of_filter.
  assert (Hadj' : get_column "adjClose" price_history
                  = Ret ((λ r : row, r.2 !!! "adjClose") <$> rows price_history))
    by (unfold get_column; by rewrite bool_decide_true).
  case_bool_decide as Hvol; cbn [negb];
    (eexists _, _; split_and!; [reflexivity|exact Hadj'|]);
    unfold get_column, set_column_scalar; cbn [columns rows].
  - rewrite bool_decide_true by done. f_equal.
    rewrite <- !list_fmap_compose. apply list_fmap_ext. intros i r _. cbn.
    by rewrite lookup_total_drop, lookup_total_insert_eq.
  - rewrite (bool_decide_false ("volume" ∈ _)) by done.
    rewrite bool_decide_true by (apply elem_of_app; by left). f_equal.
    rewrite <- !list_fmap_compose. apply list_fmap_ext. intros i r _. cbn.
    by rewrite lookup_total_insert_ne, lookup_total_drop,
      lookup_total_insert_eq.
Qed.

End Format.

Lemma _format_price_history_close_witness :
  ∃ out adj,
    _format_price_history sample_prices = Ret out ∧
    get_column "adjClose" sample_prices = Ret adj ∧
    get_column "close" out = Ret adj.
Proof.
  apply (_format_price_history_close sample_prices).
  vm_compute. do 2 apply list_elem_of_further. apply list_elem_of_here.
Defined.
(** ** Asset metadata *)

Section Sorting.
Context {A : Type} (leb : A → A → bool).

Lemma insert_sorted_Permutation x l : insert_sorted leb x l ≡ₚ x :: l.
Proof.
  induction l as [|y l IH]; [done|]. cbn.
  destruct (leb x y); [done|]. rewrite IH. apply Permutation_swap.
Qed.

Lemma stable_sort_Permutation l : stable_sort leb l ≡ₚ l.
Proof.
  induction l as [|x l IH]; [done|]. cbn.
  fold (stable_sort leb l). by rewrite insert_sorted_Permutation, IH.
Qed.
End Sorting.

Section Aggregation.
Implicit Types (ts : list Z) (data : DataFrame).

Lemma cell_leb_Time a b : cell_leb (Time a) (Time b) = bool_decide (a ≤ b)%Z.
Proof.
  unfold cell_leb. cbn. destruct (Z.compare_spec a b); symmetry;
    [apply bool_decide_true|apply bool_decide_true|apply bool_decide_false]; lia.
Qed.

Lemma cell_min_Time ts :
  ts ≠ [] → ∃ lo, cell_min (Time <$> ts) = Time lo ∧ is_min lo ts.
Proof.
  induction ts as [|t ts IH]; [done|]. intros _.
  destruct ts as [|t' ts'].
  - exists t. split; [done|]. split; [by left|].
    intros ? ->%list_elem_of_singleton. lia.
  - destruct IH as (lo & Hlo & Hin & Hle); [done|].
    cbn [fmap list_fmap cell_min foldr] in *. unfold cell_min in Hlo. cbn in Hlo.
    rewrite Hlo, cell_leb_Time. case_bool_decide.
    + exists t. split; [done|]. split; [by left|].
      intros x [->|Hx]%elem_of_cons; [lia|]. apply Hle in Hx. lia.
    + exists lo. split; [done|]. split; [by right|].
      intros x [->|Hx]%elem_of_cons; [lia|]. by apply Hle.
Qed.

Lemma cell_max_Time ts :
  ts ≠ [] → ∃ hi, cell_max (Time <$> ts) = Time hi ∧ is_max hi ts.
Proof.
  induction ts as [|t ts IH]; [done|]. intros _.
  destruct ts as [|t' ts'].
  - exists t. split; [done|]. split; [by left|].
    intros ? ->%list_elem_of_singleton. lia.
  - destruct IH as (hi & Hhi & Hin & Hle); [done|].
    cbn [fmap list_fmap cell_max foldr] in *. unfold cell_max in Hhi. cbn in Hhi.
    rewrite Hhi, cell_leb_Time. case_bool_decide.
    + exists t. split; [done|]. split; [by left|].
      intros x [->|Hx]%elem_of_cons; [lia|]. apply Hle in Hx. lia.
    + exists hi. split; [done|]. split; [by right|].
      intros x [->|Hx]%elem_of_cons; [lia|]. by apply Hle.
Qed.

Lemma group_column_dates data sym :
  symbol_date_rows data →
  group_column "symbol" (Str sym) "date" data = Time <$> dates_of sym data.
Proof.
  unfold symbol_date_rows, group_column, dates_of.
  induction (rows data) as [|r rs IH]; intros Hty; [done|].
  destruct (Hty r) as (sym' & t & Hs & Ht); [by left|].
  assert (IH' := IH (λ r' Hr', Hty r' (list_elem_of_further _ _ _ Hr'))).
  cbn [omap list_omap].
  destruct (decide (r.2 !!! "symbol" = Str sym)) as [Heq|Hne].
  - rewrite filter_cons_True, bool_decide_true by done. cbn.
    rewrite Ht. cbn. by rewrite <- IH'.
  - rewrite filter_cons_False, bool_decide_false by done. apply IH'.
Qed.

Lemma dates_of_nonempty data sym (r : row) :
  symbol_date_rows data → r ∈ rows data → r.2 !!! "symbol" = Str sym →
  dates_of sym data ≠ [].
Proof.
  intros Hty Hr Hs Hnil. destruct (Hty r Hr) as (sym' & t & _ & Ht).
  assert (t ∈ dates_of sym data) as Hin.
  { unfold dates_of. apply list_elem_of_omap. exists r. split; [done|].
    by rewrite bool_decide_true, Ht by done. }
  rewrite Hnil in Hin. by apply elem_of_nil in Hin.
Qed.

Lemma group_keys_spec data :
  symbol_date_rows data →
  NoDup (group_keys "symbol" data) ∧
  ∀ k, k ∈ group_keys "symbol" data ↔
       ∃ r : row, r ∈ rows data ∧ r.2 !!! "symbol" = k.
Proof.
  intros Hty. unfold group_keys. split.
  - rewrite stable_sort_Permutation. apply NoDup_remove_dups.
  - intros k. rewrite stable_sort_Permutation, elem_of_remove_dups,
      list_elem_of_filter, list_elem_of_fmap. split.
    + intros (_ & r & -> & Hr). by exists r.
    + intros (r & Hr & <-). split; [|by exists r].
      destruct (Hty r Hr) as (sym & t & -> & _). done.
Qed.

Lemma fmap_zip_snd {B C D} (f : C → D) (l : list B) (k : list C) :
  (λ x : B * C, (x.1, f x.2)) <$> zip l k = zip l (f <$> k).
Proof.
  revert k. induction l as [|b l IH]; intros [|c k]; cbn; [done..|].
  f_equal. apply IH.
Qed.

Lemma set_column_rows c (f : row → cell) data :
  set_column c (f <$> rows data) data =
    Ret (mkDataFrame (index_names data)
           (if bool_decide (c ∈ columns data) then columns data
            else columns data ++ [c])
           ((λ r : row, (r.1, <[c := f r]> r.2)) <$> rows data)).
Proof.
  unfold set_column. rewrite bool_decide_true by by rewrite length_fmap.
  by rewrite zip_with_fmap_r, zip_with_diag.
Qed.

Lemma map_outcome_Ret {B C} (f : B → outcome C) (g : B → C) (l : list B) :
  (∀ b, b ∈ l → f b = Ret (g b)) → map_outcome f l = Ret (g <$> l).
Proof.
  induction l as [|b l IH]; intros Hl; [done|]. cbn.
  rewrite Hl by by left. rewrite IH; [done|].
  intros b' Hb'. apply Hl. by right.
Qed.
End Aggregation.

Section Metadata.
Context {W : Type}.

Lemma metadata_frame data exchange :
  "symbol" ∈ columns data → "date" ∈ columns data →
  symbol_date_rows data →
  (data ← agg_min_max "symbol" "date" data;
   let data := set_column_scalar "exchange" (Str exchange) data in
   end_date ← get_column "end_date" data;
   auto_close ← map_outcome (add_timedelta (Timedelta_days 1)) end_date;
   set_column "auto_close_date" auto_close data) =
  Ret (mkDataFrame [None]
         ["symbol"; "start_date"; "end_date"; "exchange"; "auto_close_date"]
         (zip (RangeIndex (length (group_keys "symbol" data)))
            (metadata_row data exchange <$> group_keys "symbol" data))).
Proof.
  intros Hs Hd Hty. unfold agg_min_max.
  rewrite !bool_decide_true by done. cbn [negb mbind outcome_bind].
  cbv zeta. unfold set_column_scalar. cbn [columns rows index_names].
  replace (bool_decide ("exchange" ∈ ["symbol"; "start_date"; "end_date"]))
    with false by by vm_compute.
  set (I := RangeIndex _). set (keys := group_keys "symbol" data).
  set (rows2 := (λ r : row, _) <$> zip I _).
  assert (Hrows2 : ∀ r : row, r ∈ rows2 → ∃ sym hi,
            r.2 !!! "end_date" = Time hi ∧ Str sym ∈ keys).
  { intros [l m] ((l' & m') & [= -> ->] & Hin)%list_elem_of_fmap.
    apply elem_of_zip_r, list_elem_of_fmap in Hin as (k & -> & Hk).
    cbn. rewrite lookup_total_insert_ne, lookup_total_insert_ne,
      lookup_total_insert_ne, lookup_total_singleton_eq by done.
    pose proof Hk as Hk'.
    apply group_keys_spec in Hk as (r & Hr & Hk); [|done].
    destruct (Hty r Hr) as (sym & t & Hsym & _).
    rewrite <- Hk, Hsym, group_column_dates by done.
    destruct (cell_max_Time (dates_of sym data)) as (hi & -> & _).
    { by eapply dates_of_nonempty. }
    exists sym, hi. split; [done|]. by rewrite <- Hsym, Hk. }
  unfold get_column. cbn [columns rows].
  replace (bool_decide ("end_date" ∈ ["symbol"; "start_date"; "end_date"] ++ ["exchange"]))
    with true by by vm_compute.
  cbn [mbind outcome_bind].
  rewrite (map_outcome_Ret _ next_day).
  2:{ intros b (r & -> & (sym & hi & -> & _)%Hrows2)%list_elem_of_fmap. done. }
  cbn [mbind outcome_bind]. rewrite <- list_fmap_compose.
  set (df2 := mkDataFrame _ _ rows2).
  change rows2 with (rows df2) at 1.
  rewrite set_column_rows. subst df2. cbn [columns rows index_names].
  replace (bool_decide ("auto_close_date" ∈ ["symbol"; "start_date"; "end_date"] ++ ["exchange"]))
    with false by by vm_compute.
  f_equal. f_equal. subst rows2.
  rewrite <- list_fmap_compose.
  rewrite <- (fmap_zip_snd (metadata_row data exchange) I keys).
  rewrite <- (fmap_zip_snd _ I keys), <- list_fmap_compose.
  apply list_fmap_ext. intros i [l k] _. cbn. unfold metadata_row. by f_equal.
Qed.

Lemma gen_asset_metadata_run data show_progress exchange (s : state W) :
  gen_asset_metadata data show_progress exchange s =
    (data ← agg_min_max "symbol" "date" data;
     let data := set_column_scalar "exchange" (Str exchange) data in
     end_date ← get_column "end_date" data;
     auto_close ← map_outcome (add_timedelta (Timedelta_days 1)) end_date;
     set_column "auto_close_date" auto_close data,
     s,
     if show_progress then [EvLogInfo "Generating asset metadata."] else []).
Proof.
  unfold gen_asset_metadata. unfold_M.
  destruct show_progress; cbn;
    (destruct (agg_min_max "symbol" "date" data) as [df1|]; cbn; [|done]);
    (destruct (get_column "end_date" _) as [ends|]; cbn; [|done]);
    (destruct (map_outcome _ ends) as [autos|]; cbn; [|done]);
    by destruct (set_column _ _ _).
Qed.

Lemma int64_wrap_id z : (int64_min ≤ z ≤ int64_max)%Z → int64_wrap z = z.
Proof.
  unfold int64_wrap, int64_min, int64_max. intros Hz.
  rewrite Z.mod_small by lia. lia.
Qed.

Lemma next_day_Time t :
  (int64_min < t ≤ last_day)%Z → next_day (Time t) = Time (t + Timedelta_days 1).
Proof.
  unfold last_day, next_day, datetime64. intros Ht.
  assert (0 < Timedelta_days 1)%Z by done.
  rewrite int64_wrap_id by lia.
  destruct (Z.eqb_spec (t + Timedelta_days 1) int64_min); [lia|done].
Qed.

Lemma dates_of_elem sym data t :
  t ∈ dates_of sym data →
  ∃ r : row, r ∈ rows data ∧ r.2 !!! "date" = Time t.
Proof.
  unfold dates_of. intros (r & Hr & Ht)%list_elem_of_omap.
  exists r. split; [done|].
  destruct (bool_decide _); [|done].
  destruct (r.2 !!! "date"); try done. by injection Ht as ->.
Qed.

(** The rows of the metadata table, with the day after [end_date] as the
    64-bit addition gives it. *)
Lemma gen_asset_metadata_groups data show_progress exchange (s : state W) :
  "symbol" ∈ columns data → "date" ∈ columns data →
  rows data ≠ [] → symbol_date_rows data →
  ∃ out evs,
    gen_asset_metadata data show_progress exchange s = (Ret out, s, evs) ∧
    rows out ≠ [] ∧
    NoDup ((λ r : row, r.2 !!! "symbol") <$> rows out) ∧
    (∀ sym, Str sym ∈ (λ r : row, r.2 !!! "symbol") <$> rows out ↔
            ∃ r : row, r ∈ rows data ∧ r.2 !!! "symbol" = Str sym) ∧
    (∀ r : row, r ∈ rows out → ∃ sym lo hi,
        r.2 !!! "symbol" = Str sym ∧
        r.2 !!! "start_date" = Time lo ∧ is_min lo (dates_of sym data) ∧
        r.2 !!! "end_date" = Time hi ∧ is_max hi (dates_of sym data) ∧
        r.2 !!! "exchange" = Str exchange ∧
        r.2 !!! "auto_close_date" = next_day (Time hi)).
Proof.
  intros Hs Hd Hne Hty. eexists _, _.
  rewrite gen_asset_metadata_run, metadata_frame by done.
  split; [reflexivity|]. cbn [rows].
  destruct (group_keys_spec data Hty) as [Hnd Hkeys].
  set (keys := group_keys "symbol" data) in *.
  assert (Hlen : length (RangeIndex (length keys)) = length keys).
  { unfold RangeIndex. rewrite length_fmap, length_seqZ. lia. }
  assert (Hsym : (λ r : row, r.2 !!! "symbol") <$>
                   zip (RangeIndex (length keys)) (metadata_row data exchange <$> keys)
                 = keys).
  { rewrite <- (fmap_zip_snd _ _ keys), <- list_fmap_compose.
    etrans; [|apply (snd_zip (RangeIndex (length keys)) keys); lia].
    apply list_fmap_ext. by intros i [l k] _. }
  rewrite Hsym. split_and!.
  - destruct (rows data) as [|r rs] eqn:Hrows; [done|].
    assert (r.2 !!! "symbol" ∈ keys) as Hin
      by (apply Hkeys; exists r; split; [by left|done]).
    intros Hnil. apply (f_equal length) in Hnil.
    rewrite length_zip_with, length_fmap, Hlen in Hnil.
    destruct keys; [by apply elem_of_nil in Hin|cbn in Hnil; lia].
  - done.
  - intros sym. apply Hkeys.
  - intros [l m] Hin.
    apply elem_of_zip_r, list_elem_of_fmap in Hin as (k & -> & Hk).
    apply Hkeys in Hk as (r & Hr & <-).
    destruct (Hty r Hr) as (sym & t & Hsy & _).
    pose proof (dates_of_nonempty data sym r Hty Hr Hsy) as Hdates.
    destruct (cell_min_Time _ Hdates) as (lo & Hlo & Hmin).
    destruct (cell_max_Time _ Hdates) as (hi & Hhi & Hmax).
    exists sym, lo, hi. cbn. unfold metadata_row.
    rewrite Hsy, group_column_dates, Hlo, Hhi by done.
    split_and!; done.
Qed.

(** C6: for a non-empty table of (symbol, date) rows whose dates leave room
    for one more day in a 64-bit timestamp, [gen_asset_metadata] returns
    one row per distinct symbol, and the row of a symbol has that symbol's
    least date as [start_date], its greatest date as [end_date], the given
    tag as [exchange], and [end_date] plus one day as [auto_close_date]. *)
Theorem gen_asset_metadata_rows data show_progress exchange (s : state W) :
  "symbol" ∈ columns data → "date" ∈ columns data →
  rows data ≠ [] → symbol_date_rows data → dates_up_to last_day data →
  ∃ out evs,
    gen_asset_metadata data show_progress exchange s = (Ret out, s, evs) ∧
    rows out ≠ [] ∧
    NoDup ((λ r : row, r.2 !!! "symbol") <$> rows out) ∧
    (∀ sym, Str sym ∈ (λ r : row, r.2 !!! "symbol") <$> rows out ↔
            ∃ r : row, r ∈ rows data ∧ r.2 !!! "symbol" = Str sym) ∧
    (∀ r : row, r ∈ rows out → ∃ sym lo hi,
        r.2 !!! "symbol" = Str sym ∧
        r.2 !!! "start_date" = Time lo ∧ is_min lo (dates_of sym data) ∧
        r.2 !!! "end_date" = Time hi ∧ is_max hi (dates_of sym data) ∧
        r.2 !!! "exchange" = Str exchange ∧
        r.2 !!! "auto_close_date" = Time (hi + Timedelta_days 1)).
Proof.
  intros Hs Hd Hne Hty Hbound.
  destruct (gen_asset_metadata_groups data show_progress exchange s Hs Hd Hne Hty)
    as (out & evs & Hrun & Hout & Hnd & Hsyms & Hrows).
  exists out, evs. split_and!; [done..|].
  intros r Hr.
  destruct (Hrows r Hr) as (sym & lo & hi & ? & ? & ? & ? & Hmax & ? & Hauto).
  exists sym, lo, hi. split_and!; [done..|].
  rewrite Hauto. apply next_day_Time.
  destruct Hmax as [(r' & Hr' & Ht)%dates_of_elem _]. by eapply Hbound.
Qed.
End Metadata.

(** A table can be checked to be one of (symbol, date) rows by running
    over its rows. *)
Lemma symbol_date_rows_check data :
  forallb (λ r : row, match r.2 !!! "symbol", r.2 !!! "date" with
                      | Str _, Time _ => true
                      | _, _ => false
                      end) (rows data) = true →
  symbol_date_rows data.
Proof.
  intros Hall r Hr. rewrite forallb_forall in Hall.
  specialize (Hall r (proj1 (list_elem_of_In _ _) Hr)). cbn in Hall.
  destruct (r.2 !!! "symbol"); try done.
  destruct (r.2 !!! "date"); try done. by eexists _, _.
Qed.

(** So can the bound on its dates. *)
Lemma dates_up_to_check bound data :
  forallb (λ r : row, match r.2 !!! "date" with
                      | Time t => (int64_min <? t)%Z && (t <=? bound)%Z
                      | _ => true
                      end) (rows data) = true →
  dates_up_to bound data.
Proof.
  intros Hall r t Hr Ht. rewrite forallb_forall in Hall.
  specialize (Hall r (proj1 (list_elem_of_In _ _) Hr)). cbn in Hall.
  rewrite Ht in Hall. apply andb_true_iff in Hall as [H1 H2]. lia.
Qed.

Lemma gen_asset_metadata_rows_witness :
  ∃ out evs,
    gen_asset_metadata sample_prices true "US Equities" (mkState ∅ 0)
      = (Ret out, mkState ∅ 0, evs) ∧
    NoDup ((λ r : row, r.2 !!! "symbol") <$> rows out) ∧
    ∀ r : row, r ∈ rows out → ∃ hi,
      r.2 !!! "end_date" = Time hi ∧
      r.2 !!! "auto_close_date" = Time (hi + Timedelta_days 1).
Proof.
  destruct (gen_asset_metadata_rows sample_prices true "US Equities"
              (mkState ∅ 0%nat)) as (out & evs & Hrun & _ & Hnd & _ & Hrows).
  - vm_compute. do 3 apply list_elem_of_further. apply list_elem_of_here.
  - vm_compute. apply list_elem_of_here.
  - intros Hnil. apply (f_equal length) in Hnil. vm_compute in Hnil.
    discriminate.
  - apply symbol_date_rows_check. vm_compute. reflexivity.
  - apply dates_up_to_check. vm_compute. reflexivity.
  - exists out, evs. split_and!; [exact Hrun|exact Hnd|].
    intros r Hr. destruct (Hrows r Hr) as (_ & _ & hi & _ & _ & _ & Hhi & _ & _ & Ha).
    by exists hi.
Defined.

(** C6 as stated fails at the last representable day: the table is not
    empty and its rows hold a symbol and a date, but the 64-bit addition of
    line 32 wraps around, and [auto_close_date] is a day in 1677, not the
    day after [end_date]. *)
Lemma gen_asset_metadata_last_day_wraps :
  let r := gen_asset_metadata late_prices false "US Equities"
             (mkState ∅ 0%nat) in
  rows late_prices ≠ [] ∧
  ∃ out (x : row),
    r.1.1 = Ret out ∧ x ∈ rows out ∧
    x.2 !!! "symbol" = Str "QQQ" ∧
    x.2 !!! "end_date" = Time 9223286400000000000 ∧
    x.2 !!! "auto_close_date" = Time (-9223371273709551616) ∧
    x.2 !!! "auto_close_date" ≠ Time (9223286400000000000 + Timedelta_days 1).
Proof.
  split; [done|]. cbv zeta. rewrite gen_asset_metadata_run.
  rewrite metadata_frame.
  - eexists _, _. cbn [fst snd rows]. split; [reflexivity|].
    replace (group_keys "symbol" late_prices) with [Str "QQQ"]
      by (vm_compute; reflexivity).
    split; [apply list_elem_of_here|].
    cbn [snd]. split_and!; try (vm_compute; reflexivity).
    replace (metadata_row late_prices "US Equities" (Str "QQQ")
               !!! "auto_close_date")
      with (Time (-9223371273709551616)) by (vm_compute; reflexivity).
    discriminate.
  - apply (bool_decide_unpack _). vm_compute. exact I.
  - apply (bool_decide_unpack _). vm_compute. exact I.
  - apply symbol_date_rows_check. vm_compute. reflexivity.
Qed.
(** ** The events of a whole ingestion *)

Section Emits.
Context {W : Type} (P : event → Prop).
Implicit Types (s : state W).

Lemma emits_ret {A} (a : A) : emits (W := W) P (mret a).
Proof. intros s. constructor. Qed.

Lemma emits_raise {A} e : emits (W := W) (A := A) P (raise e).
Proof. intros s. constructor. Qed.

Lemma emits_lift {A} (r : outcome A) : emits (W := W) P (lift r).
Proof. intros s. constructor. Qed.

Lemma emits_emit ev : P ev → emits (W := W) P (emit ev).
Proof. intros Hev s. by repeat constructor. Qed.

Lemma emits_load p : emits (W := W) P (load p).
Proof. intros s. constructor. Qed.

Lemma emits_store p d : emits (W := W) P (store p d).
Proof. intros s. constructor. Qed.

Lemma emits_alloc d : emits (W := W) P (alloc d).
Proof. intros s. constructor. Qed.

Lemma emits_invoke (method : callable W) kwargs :
  (∀ r, P (EvInvoke kwargs r)) → emits P (invoke method kwargs).
Proof.
  intros Hev s. unfold invoke. destruct (method kwargs (world s)) as [r w].
  by repeat constructor.
Qed.

Lemma emits_call_sink ev (w : sink W) : P ev → emits P (call_sink ev w).
Proof.
  intros Hev s. unfold call_sink. destruct (w (world s)) as [r w'].
  by repeat constructor.
Qed.

Lemma emits_bind {A B} (m : M W A) (f : A → M W B) :
  emits P m → (∀ a, emits P (f a)) → emits P (m ≫= f).
Proof.
  intros Hm Hf s. unfold mbind, M_bind. specialize (Hm s).
  destruct (m s) as [[[a|e] s1] t1]; cbn in *; [|done].
  specialize (Hf a s1). destruct (f a s1) as [[r s2] t2]; cbn in *.
  by apply Forall_app.
Qed.

Lemma emits_try_except {A} (body : M W A) handler :
  emits P body → (∀ e, emits P (handler e)) → emits P (try_except body handler).
Proof.
  intros Hm Hh s. unfold try_except. specialize (Hm s).
  destruct (body s) as [[[a|e] s1] t1]; cbn in *; [done|].
  destruct (is_Exception e); [|done].
  specialize (Hh e s1). destruct (handler e s1) as [[r s2] t2]; cbn in *.
  by apply Forall_app.
Qed.

Lemma emits_if {A} (b : bool) (m1 m2 : M W A) :
  emits P m1 → emits P m2 → emits P (if b then m1 else m2).
Proof. by destruct b. Qed.

End Emits.

Create HintDb emits.
#[local] Hint Resolve emits_ret emits_raise emits_lift emits_load emits_store
  emits_alloc emits_if : emits.

Section IngestEvents.
Context {W : Type} `{!Externals W}.

Ltac emits_step :=
  first [ apply emits_bind; [|intros ?]
        | apply emits_try_except; [|intros ?]
        | apply emits_emit; exact I
        | apply emits_invoke; intros ?; exact I
        | apply emits_call_sink
        | solve [auto with emits] ].

Lemma emits_retry_loop (method : callable W) p retries sleep_time xs lc :
  emits adjustments_empty (retry_loop method p retries sleep_time xs lc).
Proof.
  revert lc. induction xs as [|x xs IH]; intros lc; cbn [retry_loop].
  - auto with emits.
  - apply emits_bind; [unfold attempt; repeat emits_step|]. intros lc1.
    destruct (str_error lc1) as [|[e|]]; [auto with emits| |auto with emits].
    destruct (x <? retries)%Z; [|auto with emits].
    repeat emits_step.
Qed.

Lemma emits_call_fmp (method : callable W) p retries sleep_time :
  emits adjustments_empty (call_fmp method p retries sleep_time).
Proof.
  unfold call_fmp. repeat emits_step.
  - apply emits_retry_loop.
  - destruct (res _); auto with emits.
Qed.

Lemma emits_fetch_loop items n ss es sp hist :
  emits adjustments_empty (fetch_loop items n ss es sp hist).
Proof.
  revert hist. induction items as [|[ix symbol] rest IH]; intros hist;
    cbn [fetch_loop]; [auto with emits|].
  apply emits_bind; [destruct sp; repeat emits_step|]. intros _.
  apply emits_bind; [auto with emits|]. intros p.
  apply emits_bind; [apply emits_call_fmp|]. intros v.
  destruct (negb (truthy v)); [apply IH|].
  apply emits_bind; [auto with emits|]. intros h. apply IH.
Qed.

Lemma emits_gen_asset_metadata data show_progress exchange :
  emits adjustments_empty (gen_asset_metadata (W := W) data show_progress exchange).
Proof.
  unfold gen_asset_metadata.
  apply emits_bind; [destruct show_progress; repeat emits_step|]. intros _.
  repeat emits_step.
Qed.

(** Each call of the adjustment writer is handed the two frames built from
    column headers alone. *)
Lemma ingest_fmp_adjustment_events asset_db_writer daily_bar_writer
    adjustment_writer calendar show_progress (s : state W) :
  Forall (λ ev, match ev with
                | EvAdjustmentWrite splits dividends =>
                    rows splits = [] ∧ columns splits = splits_columns ∧
                    rows dividends = [] ∧ columns dividends = dividends_columns
                | _ => True
                end)
    (ingest_fmp asset_db_writer daily_bar_writer adjustment_writer
       calendar show_progress s).2.
Proof.
  apply (Forall_impl adjustments_empty).
  - revert s. change (emits adjustments_empty (ingest_fmp asset_db_writer daily_bar_writer
      adjustment_writer calendar show_progress)).
    unfold ingest_fmp, get_stocks_history.
    apply emits_bind; [intros s; constructor|]. intros end_.
    apply emits_bind; [apply emits_fetch_loop|]. intros raw_data.
    apply emits_bind; [auto with emits|]. intros raw_data_df.
    apply emits_bind; [auto with emits|]. intros symbol_date.
    apply emits_bind; [apply emits_gen_asset_metadata|]. intros asset_metadata.
    apply emits_bind; [by apply emits_call_sink|]. intros _.
    apply emits_bind; [auto with emits|]. intros symbol_map.
    apply emits_bind; [by apply emits_call_sink|]. intros _.
    by apply emits_call_sink.
  - intros [] Hev; try exact I. destruct Hev as [-> ->]. done.
Qed.

End IngestEvents.

(** The adjustment writer is reached when nothing fails before it. *)
Example ingest_fmp_sample_run :
  let r := ingest_fmp (Externals0 := sample_externals bars_api)
             (λ _ _, ok_sink) (λ _ _, ok_sink) (λ _ _, ok_sink)
             sample_calendar true (mkState ∅ 0) in
  r.1.1 = Ret () ∧
  last r.2 = Some (EvAdjustmentWrite (empty_frame splits_columns)
                     (empty_frame dividends_columns)).
Proof. split; vm_compute; reflexivity. Qed.

(** * Further properties *)

(** ** The retrying client, continued *)

Section CallFmpMore.
Context {W : Type}.
Implicit Types (method : callable W) (s : state W) (p : loc) (d : gmap string pyval).

(** A result of the first attempt is what [call_fmp] returns: one
    invocation, nothing logged. *)
Theorem call_fmp_returns_first_result method p retries sleep_time s v w :
  (0 < retries)%Z →
  method (with_apikey (default ∅ (heap s !! p))) (world s) = (Ret v, w) →
  call_fmp method p retries sleep_time s =
    (Ret v, mkState (heap_with_apikey s p) w,
     [EvInvoke (with_apikey (default ∅ (heap s !! p))) (Ret v)]).
Proof.
  intros Hpos Hm. rewrite call_fmp_first_attempt by done. by rewrite Hm.
Qed.

(** An exception outside [Exception] is not caught: it reaches the caller
    as it is, after one invocation and without a log line. *)
Theorem call_fmp_base_exception_propagates method p retries sleep_time s e w :
  (0 < retries)%Z →
  method (with_apikey (default ∅ (heap s !! p))) (world s) = (Raise e, w) →
  is_Exception e = false →
  call_fmp method p retries sleep_time s =
    (Raise e, mkState (heap_with_apikey s p) w,
     [EvInvoke (with_apikey (default ∅ (heap s !! p))) (Raise e)]).
Proof.
  intros Hpos Hm He. rewrite call_fmp_first_attempt by done.
  by rewrite Hm, He.
Qed.

Lemma with_apikey_other d k : k ≠ "apikey" → with_apikey d !! k = d !! k.
Proof.
  intros Hk. unfold with_apikey. destruct (truthy _); [done|].
  by rewrite lookup_insert_ne.
Qed.

Lemma with_apikey_truthy d :
  truthy (default VNone (with_apikey d !! "apikey")) = true.
Proof.
  unfold with_apikey.
  destruct (truthy (default VNone (d !! "apikey"))) eqn:Ht; [done|].
  by rewrite lookup_insert_eq.
Qed.

(** The method only ever sees the caller's parameters with a truthy
    ["apikey"]: every other keyword is passed as the caller set it. *)
Theorem call_fmp_keywords method p retries sleep_time s d :
  heap s !! p = Some d →
  Forall (λ ev, match ev with
                | EvInvoke kwargs _ =>
                    truthy (default VNone (kwargs !! "apikey")) = true ∧
                    ∀ k, k ≠ "apikey" → kwargs !! k = d !! k
                | _ => True
                end)
    (call_fmp method p retries sleep_time s).2.
Proof.
  intros Hp.
  assert (Hkw : truthy (default VNone (with_apikey d !! "apikey")) = true ∧
                ∀ k, k ≠ "apikey" → with_apikey d !! k = d !! k)
    by (split; [apply with_apikey_truthy|apply with_apikey_other]).
  destruct (decide (0 < retries)%Z) as [Hpos|Hle].
  - rewrite call_fmp_first_attempt by done. rewrite Hp. cbn [default].
    destruct (method _ (world s)) as [[v|e] w]; [|destruct (is_Exception e)];
      cbn; repeat (apply List.Forall_cons; [done|]); apply List.Forall_nil.
  - rewrite call_fmp_no_attempt by lia. constructor.
Qed.

End CallFmpMore.

Lemma call_fmp_returns_first_result_witness :
  call_fmp bars_api 1%positive 2 70 (sample_state sample_params) =
    (Ret (VDict [("symbol", VStr "QQQ");
                 ("historical", VList [bar "2021-01-05" 10 9;
                                       bar "2021-01-04" 8 7;
                                       bar "2021-01-05" 11 10])]),
     mkState (heap_with_apikey (sample_state sample_params) 1%positive) 1,
     [EvInvoke (with_apikey sample_params)
        (Ret (VDict [("symbol", VStr "QQQ");
                     ("historical", VList [bar "2021-01-05" 10 9;
                                           bar "2021-01-04" 8 7;
                                           bar "2021-01-05" 11 10])]))]).
Proof.
  apply (call_fmp_returns_first_result bars_api 1%positive 2 70
           (sample_state sample_params)); [lia|].
  vm_compute. reflexivity.
Defined.

Lemma call_fmp_caught_exception_witness :
  (call_fmp failing_api 1%positive 2 70 (sample_state sample_params)).1.1
    = Raise (UnboundLocalError "str_error") ∧
  invocations (call_fmp failing_api 1%positive 2 70
                 (sample_state sample_params)).2 = 1%nat.
Proof.
  apply (call_fmp_caught_exception failing_api 1%positive 2 70
           (sample_state sample_params) (Exception "HTTP 503") 1%nat);
    [lia|reflexivity|reflexivity].
Defined.

Lemma call_fmp_base_exception_propagates_witness :
  call_fmp (λ _ w, (Raise KeyboardInterrupt, w)) 1%positive 2 70
    (sample_state sample_params) =
    (Raise KeyboardInterrupt,
     mkState (heap_with_apikey (sample_state sample_params) 1%positive) 0%nat,
     [EvInvoke (with_apikey sample_params) (Raise KeyboardInterrupt)]).
Proof.
  apply (call_fmp_base_exception_propagates (λ _ w, (Raise KeyboardInterrupt, w))
           1%positive 2 70 (sample_state sample_params)); [lia|reflexivity|reflexivity].
Defined.

Lemma call_fmp_keywords_witness :
  Forall (λ ev, match ev with
                | EvInvoke kwargs _ =>
                    truthy (default VNone (kwargs !! "apikey")) = true ∧
                    ∀ k, k ≠ "apikey" → kwargs !! k = sample_params !! k
                | _ => True
                end)
    (call_fmp bars_api 1%positive 2 70 (sample_state sample_params)).2.
Proof.
  apply (call_fmp_keywords bars_api 1%positive 2 70 (sample_state sample_params)).
  reflexivity.
Defined.

(** ** The history fetch, continued *)

Section FetchMore.
Context {W : Type} `{!Externals W}.
Implicit Types (s : state W).

Lemma request_params_no_apikey ss es symbol :
  with_apikey (request_params ss es symbol)
    = <["apikey" := VStr FMP_API_KEY]> (request_params ss es symbol).
Proof.
  unfold with_apikey, request_params.
  by rewrite !lookup_insert_ne, lookup_singleton_ne by done.
Qed.

(** One turn of the loop of lines 85-95. *)
Lemma fetch_loop_cons ix symbol rest n ss es (sp : bool) hist s :
  let log : list event :=
    if sp then [EvLogInfo (pretty ix +:+ "/" +:+ pretty n)] else [] in
  let p : loc := fresh (dom (heap s)) in
  let kw := <["apikey" := VStr FMP_API_KEY]> (request_params ss es symbol) in
  let h := <[p := kw]> (<[p := request_params ss es symbol]> (heap s)) in
  fetch_loop ((ix, symbol) :: rest) n ss es sp hist s =
    match historical_price_full kw (world s) with
    | (Ret v, w) =>
        if truthy v then
          match subscript v "historical" with
          | Ret hv =>
              let '(r, s2, t2) :=
                fetch_loop rest n ss es sp (assoc_set hist symbol hv) (mkState h w) in
              (r, s2, log ++ EvInvoke kw (Ret v) :: t2)
          | Raise e => (Raise e, mkState h w, log ++ [EvInvoke kw (Ret v)])
          end
        else
          let '(r, s2, t2) := fetch_loop rest n ss es sp hist (mkState h w) in
          (r, s2, log ++ EvInvoke kw (Ret v) :: t2)
    | (Raise e, w) =>
        if is_Exception e
        then (Raise (UnboundLocalError "str_error"), mkState h w,
              log ++ [EvInvoke kw (Raise e);
                      EvLogError ("FMP Request failed. " +:+ exn_str e)])
        else (Raise e, mkState h w, log ++ [EvInvoke kw (Raise e)])
    end.
Proof.
  intros log p kw h. cbn [fetch_loop]. unfold_M.
  fold (request_params ss es symbol).
  set (logm := if sp then _ else _).
  assert (logm s = (Ret (), s, log)) as -> by (subst logm log; by destruct sp).
  cbn -[call_fmp fetch_loop]. fold p.
  rewrite call_fmp_first_attempt by done.
  unfold heap_with_apikey. cbn [heap world].
  rewrite lookup_insert_eq. cbn [default].
  unfold id. rewrite request_params_no_apikey. fold kw.
  replace (truthy (default VNone (request_params ss es symbol !! "apikey")))
    with false
    by (unfold request_params;
        by rewrite !lookup_insert_ne, lookup_singleton_ne by done).
  fold h.
  destruct (historical_price_full kw (world s)) as [[v|e] w];
    [|destruct (is_Exception e); cbn; done].
  destruct (truthy v); cbn -[fetch_loop].
  - destruct (subscript v "historical"); cbn -[fetch_loop]; [|done].
    by destruct (fetch_loop rest _ _ _ _ _ _) as [[r s2] t2].
  - by destruct (fetch_loop rest _ _ _ _ _ _) as [[r s2] t2].
Qed.

Lemma invocations_app l1 l2 :
  invocations (l1 ++ l2) = (invocations l1 + invocations l2)%nat.
Proof. unfold invocations. by rewrite List.filter_app, length_app. Qed.

Lemma invocations_log (sp : bool) msg :
  invocations (if sp then [EvLogInfo msg] else []) = 0%nat.
Proof. by destruct sp. Qed.

Lemma invocations_invoke kwargs r l :
  invocations (EvInvoke kwargs r :: l) = S (invocations l).
Proof. done. Qed.

Lemma fetch_loop_invocations items n ss es sp hist s :
  let r := fetch_loop items n ss es sp hist s in
  (invocations r.2 ≤ length items)%nat ∧
  (∀ out, r.1.1 = Ret out →
     invocations r.2 = length items ∧ Forall call_returned r.2).
Proof.
  revert hist s. induction items as [|[ix symbol] rest IH]; intros hist s.
  - cbn. split; [lia|]. intros _ _. split; [done|constructor].
  - cbv zeta. rewrite fetch_loop_cons.
    set (log := if sp then _ else _).
    assert (Hlog : invocations log = 0%nat) by apply invocations_log.
    assert (Hlogr : Forall call_returned log)
      by (subst log; destruct sp; repeat constructor).
    destruct (historical_price_full _ (world s)) as [[v|e] w].
    + destruct (truthy v).
      * destruct (subscript v "historical") as [hv|e].
        -- match goal with |- context [fetch_loop rest n ss es sp ?h ?st] =>
             specialize (IH h st); destruct (fetch_loop rest n ss es sp h st)
               as [[r s2] t2] end.
           cbn [fst snd length] in *. destruct IH as [IH1 IH2].
           rewrite invocations_app, Hlog, invocations_invoke.
           split; [lia|]. intros out Hout.
           destruct (IH2 out Hout) as [-> Hall]. split; [done|].
           apply Forall_app. split; [done|]. by constructor.
        -- cbn [fst snd length]. rewrite invocations_app, Hlog, invocations_invoke.
           split; [cbn; lia|done].
      * match goal with |- context [fetch_loop rest n ss es sp ?h ?st] =>
          specialize (IH h st); destruct (fetch_loop rest n ss es sp h st)
            as [[r s2] t2] end.
        cbn [fst snd length] in *. destruct IH as [IH1 IH2].
        rewrite invocations_app, Hlog, invocations_invoke.
        split; [lia|]. intros out Hout.
        destruct (IH2 out Hout) as [-> Hall]. split; [done|].
        apply Forall_app. split; [done|]. by constructor.
    + destruct (is_Exception e); cbn [fst snd length];
        rewrite invocations_app, Hlog, invocations_invoke;
        (split; [cbn; lia|done]).
Qed.

(** [get_stocks_history] calls the API at most once per listed symbol,
    whatever happens; when it returns a mapping it has called it exactly
    once per listed symbol and none of the calls raised. *)
Theorem get_stocks_history_invocations symbols start end_ show_progress s :
  let r := get_stocks_history symbols start end_ show_progress s in
  (invocations r.2 ≤ length symbols)%nat ∧
  (∀ hist, r.1.1 = Ret hist →
     invocations r.2 = length symbols ∧ Forall call_returned r.2).
Proof.
  unfold get_stocks_history.
  pose proof (fetch_loop_invocations (zip (seq 0 (length symbols)) symbols)
                (length symbols) (strftime start FMP_DATE_FORMAT)
                (strftime end_ FMP_DATE_FORMAT) show_progress [] s) as H.
  cbv zeta in *. by rewrite length_zip_with, length_seq, Nat.min_id in H.
Qed.

Lemma fetch_loop_requests items n ss es sp hist s symbols :
  (∀ x, x ∈ items.*2 → x ∈ symbols) →
  Forall (well_formed_request ss es symbols)
    (fetch_loop items n ss es sp hist s).2.
Proof.
  revert hist s. induction items as [|[ix symbol] rest IH]; intros hist s Hsub.
  - constructor.
  - rewrite fetch_loop_cons.
    set (log := if sp then _ else _).
    assert (Hlog : Forall (well_formed_request ss es symbols) log)
      by (subst log; destruct sp; repeat constructor).
    assert (Hin : symbol ∈ symbols) by (apply Hsub; by left).
    assert (Hrest : ∀ x, x ∈ rest.*2 → x ∈ symbols)
      by (intros x Hx; apply Hsub; by right).
    assert (Hev : ∀ r, well_formed_request ss es symbols
                         (EvInvoke (<["apikey" := VStr FMP_API_KEY]>
                                      (request_params ss es symbol)) r))
      by (intros r; by exists symbol).
    destruct (historical_price_full _ (world s)) as [[v|e] w].
    + destruct (truthy v).
      * destruct (subscript v "historical") as [hv|e].
        -- match goal with |- context [fetch_loop rest n ss es sp ?h ?st] =>
             specialize (IH h st Hrest); destruct (fetch_loop rest n ss es sp h st)
               as [[r s2] t2] end.
           cbn [fst snd] in *. apply Forall_app. split; [done|].
           apply List.Forall_cons; [apply Hev|done].
        -- cbn [fst snd]. apply Forall_app. split; [done|].
           apply List.Forall_cons; [apply Hev|apply List.Forall_nil].
      * match goal with |- context [fetch_loop rest n ss es sp ?h ?st] =>
          specialize (IH h st Hrest); destruct (fetch_loop rest n ss es sp h st)
            as [[r s2] t2] end.
        cbn [fst snd] in *. apply Forall_app. split; [done|].
           apply List.Forall_cons; [apply Hev|done].
    + destruct (is_Exception e); cbn [fst snd]; apply Forall_app; (split; [done|]);
        repeat (apply List.Forall_cons; [first [apply Hev|exact I]|]);
        apply List.Forall_nil.
Qed.

(** Every API call of [get_stocks_history] asks for one of the listed
    symbols, over the one window [start]..[end] formatted with
    [FMP_DATE_FORMAT], and carries the default key and nothing else. *)
Theorem get_stocks_history_requests symbols start end_ show_progress s :
  Forall (well_formed_request (strftime start FMP_DATE_FORMAT)
            (strftime end_ FMP_DATE_FORMAT) symbols)
    (get_stocks_history symbols start end_ show_progress s).2.
Proof.
  unfold get_stocks_history. apply fetch_loop_requests.
  intros x Hx. by rewrite snd_zip in Hx by (rewrite length_seq; lia).
Qed.

Lemma fetch_loop_heap_frame items n ss es sp hist s q d :
  heap s !! q = Some d →
  heap (fetch_loop items n ss es sp hist s).1.2 !! q = Some d.
Proof.
  revert hist s. induction items as [|[ix symbol] rest IH]; intros hist s Hq.
  - done.
  - rewrite fetch_loop_cons.
    set (p := fresh (dom (heap s))).
    assert (Hp : q ≠ p).
    { intros ->. apply (is_fresh (dom (heap s))). apply elem_of_dom. by eexists. }
    set (h := <[p := _]> (<[p := _]> (heap s))).
    assert (Hh : h !! q = Some d) by (subst h; by rewrite !lookup_insert_ne).
    destruct (historical_price_full _ (world s)) as [[v|e] w].
    + destruct (truthy v).
      * destruct (subscript v "historical") as [hv|e]; [|done].
        match goal with |- context [fetch_loop rest n ss es sp ?h ?st] =>
          specialize (IH h st Hh); destruct (fetch_loop rest n ss es sp h st)
            as [[r s2] t2] end.
        done.
      * match goal with |- context [fetch_loop rest n ss es sp ?h ?st] =>
          specialize (IH h st Hh); destruct (fetch_loop rest n ss es sp h st)
            as [[r s2] t2] end.
        done.
    + by destruct (is_Exception e).
Qed.

(** [get_stocks_history] builds a new [params] dictionary for each symbol:
    no dictionary that existed before the call is changed by it. *)
Theorem get_stocks_history_heap_frame symbols start end_ show_progress s q d :
  heap s !! q = Some d →
  heap (get_stocks_history symbols start end_ show_progress s).1.2 !! q = Some d.
Proof. apply fetch_loop_heap_frame. Qed.

End FetchMore.

Lemma get_stocks_history_heap_frame_witness :
  heap (get_stocks_history (Externals0 := sample_externals bars_api)
          ["QQQ"; "SPY"] 0 0 true (sample_state sample_params)).1.2 !! 1%positive
    = Some sample_params.
Proof.
  apply (get_stocks_history_heap_frame (Externals0 := sample_externals bars_api)
           ["QQQ"; "SPY"] 0 0 true (sample_state sample_params) 1%positive
           sample_params).
  reflexivity.
Defined.

(** ** Deduplication and reindexing, continued *)

Section Order.

Lemma compare_self (c : comparison) : c = CompOpp c → c = Eq.
Proof. by destruct c. Qed.

Lemma cell_cmp_antisym a b : cell_cmp a b = CompOpp (cell_cmp b a).
Proof.
  destruct a, b; cbn; try done.
  - unfold Qccompare. by rewrite <- Qcompare_antisym.
  - apply String.compare_antisym.
  - apply Z.compare_antisym.
Qed.

Lemma cell_cmp_refl a : cell_cmp a a = Eq.
Proof. apply compare_self, cell_cmp_antisym. Qed.

Lemma label_cmp_refl (l : label) : label_cmp l l = Eq.
Proof. induction l as [|x l IH]; [done|]. cbn. by rewrite cell_cmp_refl. Qed.

Lemma rows_leb_same_label i (r1 r2 : row) : r1.1 = r2.1 → rows_leb i r1 r2 = true.
Proof.
  intros Heq. unfold rows_leb, label_leb. by rewrite Heq, label_cmp_refl.
Qed.

(** The order on cells is total. *)
Lemma cell_leb_total a b : cell_leb a b = false → cell_leb b a = true.
Proof.
  unfold cell_leb. rewrite (cell_cmp_antisym b a).
  by destruct (cell_cmp a b).
Qed.

End Order.

Section DedupMore.
Implicit Types (seen : list label) (rs : list row) (df : DataFrame).

Lemma keep_first_find seen rs k :
  k ∉ seen → find_row k (keep_first seen rs) = find_row k rs.
Proof.
  revert seen. induction rs as [|r rs IH]; intros seen Hk; [done|].
  rewrite keep_first_cons. cbn [find_row]. case_bool_decide as Hin.
  - rewrite bool_decide_false by (intros <-; done). by apply IH.
  - cbn [find_row]. case_bool_decide as Heq; [done|]. apply IH.
    intros [?|?]%elem_of_cons; by subst.
Qed.

Lemma keep_first_distinct seen rs :
  NoDup rs.*1 → (∀ r : row, r ∈ rs → r.1 ∉ seen) → keep_first seen rs = rs.
Proof.
  revert seen. induction rs as [|r rs IH]; intros seen Hnd Hfresh; [done|].
  cbn in Hnd. apply NoDup_cons in Hnd as [Hr Hnd].
  rewrite keep_first_cons, bool_decide_false by (apply Hfresh; by left).
  f_equal. apply IH; [done|]. intros r' Hr' [Heq|Hs]%elem_of_cons.
  - apply Hr. rewrite <- Heq. apply list_elem_of_fmap. by exists r'.
  - by apply (Hfresh r'); [right|].
Qed.

(** The filter of lines 70-71 keeps, for each label, exactly the first row
    that carries it: the labels it leaves are distinct, and looking a label
    up gives the same row before and after. *)
Theorem drop_duplicated_index_keeps_first df :
  NoDup (index (drop_duplicated_index df)) ∧
  ∀ k, find_row k (rows (drop_duplicated_index df)) = find_row k (rows df).
Proof.
  split; [apply drop_duplicated_index_NoDup|].
  intros k. apply (keep_first_find [] (rows df) k). by intros ?%elem_of_nil.
Qed.

(** On a table whose labels are distinct the filter changes nothing. *)
Theorem drop_duplicated_index_distinct df :
  NoDup (index df) → drop_duplicated_index df = df.
Proof.
  intros Hnd. unfold drop_duplicated_index, getitem_mask, duplicated.
  change (mask_rows _ _) with (keep_first [] (rows df)).
  rewrite keep_first_distinct; [by destruct df|done|].
  by intros r _ ?%elem_of_nil.
Qed.

(** A stable sort does not change which row a label finds first. *)
Lemma insert_sorted_find i (r : row) rs k :
  find_row k (insert_sorted (rows_leb i) r rs) = find_row k (r :: rs).
Proof.
  induction rs as [|r' rs IH]; [done|]. cbn [insert_sorted].
  destruct (rows_leb i r r') eqn:Hle; [done|].
  cbn [find_row] in *. rewrite IH.
  case_bool_decide as H1; case_bool_decide as H2; try done.
  rewrite rows_leb_same_label in Hle by congruence. done.
Qed.

Lemma stable_sort_find i rs k :
  find_row k (stable_sort (rows_leb i) rs) = find_row k rs.
Proof.
  induction rs as [|r rs IH]; [done|]. cbn [stable_sort foldr].
  fold (stable_sort (rows_leb i) rs).
  rewrite insert_sorted_find. cbn [find_row]. by rewrite IH.
Qed.

Lemma _set_dates_for_calendar_frame price_history calendar start end_
    (symbol_map : Series) :
  "date" ∈ columns price_history → "symbol" ∈ columns price_history →
  _set_dates_for_calendar price_history calendar start end_ symbol_map =
    Ret (mkDataFrame [Some "date"; Some "symbol"]
           (filter (λ c, c ∉ ["date"; "symbol"]) (columns price_history))
           ((λ k, (k, default ∅ (find_row k (labelled_rows price_history))))
              <$> calendar_labels (sessions_in_range calendar start end_)
                    symbol_map)).
Proof.
  intros Hd Hs. unfold _set_dates_for_calendar, set_index.
  rewrite !filter_cons, filter_nil.
  rewrite !decide_False by (intros Hn; by apply Hn).
  cbn [mbind outcome_bind]. unfold sort_index. cbn [index_names level_position fmap list_fmap].
  rewrite bool_decide_true by done. cbn [mbind outcome_bind].
  unfold reindex. rewrite bool_decide_true by apply drop_duplicated_index_NoDup.
  cbn [index_names columns rows drop_duplicated_index getitem_mask].
  f_equal. f_equal. apply list_fmap_ext. intros _ k _. f_equal. f_equal.
  unfold duplicated, index. cbn [rows].
  change (mask_rows _ ?rs) with (keep_first [] rs).
  rewrite keep_first_find by (by intros ?%elem_of_nil).
  apply stable_sort_find.
Qed.

(** What [_set_dates_for_calendar] puts in each row: for a (session,
    symbol) pair, the first row of the input, in the order the vendor sent
    them, that has this date and this symbol, without the two columns; a
    row of nulls when the input has none. *)
Theorem _set_dates_for_calendar_content price_history calendar start end_
    (symbol_map : Series) :
  "date" ∈ columns price_history → "symbol" ∈ columns price_history →
  _set_dates_for_calendar price_history calendar start end_ symbol_map =
    Ret (mkDataFrame [Some "date"; Some "symbol"]
           (filter (λ c, c ∉ ["date"; "symbol"]) (columns price_history))
           ((λ k, (k, default ∅ (find_row k (labelled_rows price_history))))
              <$> calendar_labels (sessions_in_range calendar start end_)
                    symbol_map)).
Proof. apply _set_dates_for_calendar_frame. Qed.

(** Without a [date] or a [symbol] column the function fails at line 66
    with a [KeyError] that lists those of the two that are missing. *)
Theorem _set_dates_for_calendar_missing_column price_history calendar start
    end_ (symbol_map : Series) :
  ¬ ("date" ∈ columns price_history ∧ "symbol" ∈ columns price_history) →
  _set_dates_for_calendar price_history calendar start end_ symbol_map
    = Raise (KeyError
               ("None of " +:+
                repr_list (filter (λ c, c ∉ columns price_history)
                             ["date"; "symbol"]) +:+
                " are in the columns")).
Proof.
  intros Hmiss. unfold _set_dates_for_calendar, set_index.
  destruct (filter _ ["date"; "symbol"]) as [|c missing] eqn:Hfilter; [|done].
  exfalso. apply Hmiss.
  split; apply dec_stable; intros Hc;
    eapply (elem_of_nil (A := string)); rewrite <- Hfilter;
    apply list_elem_of_filter; (split; [exact Hc|]).
  - by left.
  - right. by left.
Qed.

End DedupMore.

Lemma drop_duplicated_index_distinct_witness :
  drop_duplicated_index sample_prices = sample_prices.
Proof.
  apply (drop_duplicated_index_distinct sample_prices).
  apply (bool_decide_unpack _). vm_compute. exact I.
Defined.

Lemma _set_dates_for_calendar_content_witness :
  _set_dates_for_calendar sample_prices sample_calendar 0 0 sample_symbol_map =
    Ret (mkDataFrame [Some "date"; Some "symbol"]
           (filter (λ c, c ∉ ["date"; "symbol"]) (columns sample_prices))
           ((λ k, (k, default ∅ (find_row k (labelled_rows sample_prices))))
              <$> calendar_labels (sessions_in_range sample_calendar 0 0)
                    sample_symbol_map)).
Proof.
  apply (_set_dates_for_calendar_content sample_prices sample_calendar 0 0
           sample_symbol_map).
  - vm_compute. apply list_elem_of_here.
  - vm_compute. do 3 apply list_elem_of_further. apply list_elem_of_here.
Defined.

Lemma _set_dates_for_calendar_missing_column_witness :
  _set_dates_for_calendar (empty_frame ["open"]) sample_calendar 0 0
    sample_symbol_map
    = Raise (KeyError "None of ['date', 'symbol'] are in the columns").
Proof.
  etrans.
  - apply (_set_dates_for_calendar_missing_column (empty_frame ["open"])
             sample_calendar 0 0 sample_symbol_map).
    intros [Hd _]. vm_compute in Hd.
    apply elem_of_cons in Hd as [Hd|Hd]; [discriminate|by apply elem_of_nil in Hd].
  - vm_compute. reflexivity.
Defined.

(** ** Formatting the price history, continued *)

Section FormatMore.
Implicit Types (df : DataFrame).

(** Lines 40-45 as one frame: [close] set from [adjClose], every column
    outside [cols_to_keep] dropped. *)
Lemma _format_price_history_run price_history :
  "adjClose" ∈ columns price_history →
  let cols1 := if bool_decide ("close" ∈ columns price_history)
               then columns price_history
               else columns price_history ++ ["close"] in
  let remove := elements (list_to_set cols1 ∖ list_to_set cols_to_keep
                          : gset string) in
  let kept := mkDataFrame (index_names price_history)
                (filter (λ c, c ∉ remove) cols1)
                ((λ r : row,
                    (r.1, filter (λ kv : string * cell, kv.1 ∉ remove)
                            (<["close" := r.2 !!! "adjClose"]> r.2)))
                   <$> rows price_history) in
  (∀ c, c ∈ remove ↔ c ∈ cols1 ∧ c ∉ cols_to_keep) ∧
  _format_price_history price_history =
    Ret (if bool_decide ("volume" ∈ columns kept) then kept
         else set_column_scalar "volume" (Num 0) kept).
Proof.
  intros Hadj cols1 remove kept.
  assert (Hrem : ∀ c, c ∈ remove ↔ c ∈ cols1 ∧ c ∉ cols_to_keep).
  { intros c. subst remove.
    by rewrite elem_of_elements, elem_of_difference, !elem_of_list_to_set. }
  split; [done|].
  unfold _format_price_history.
  unfold get_column at 1. rewrite bool_decide_true by done.
  cbn [mbind outcome_bind]. rewrite set_column_self. cbn [mbind outcome_bind].
  cbn [columns]. fold cols1. fold remove.
  unfold drop_columns. cbn [columns rows index_names].
  rewrite filter_none by (intros c [? _]%Hrem Hn; by apply Hn).
  cbn [mbind outcome_bind]. rewrite <- list_fmap_compose.
  subst kept. cbn [columns]. by case_bool_decide.
Qed.

(** Without an [adjClose] column the function fails at its first line. *)
Theorem _format_price_history_missing_adjClose price_history :
  "adjClose" ∉ columns price_history →
  _format_price_history price_history = Raise (KeyError "adjClose").
Proof.
  intros Hn. unfold _format_price_history, get_column.
  by rewrite bool_decide_false.
Qed.

Lemma _format_price_history_shape price_history :
  "adjClose" ∈ columns price_history →
  ∃ out, _format_price_history price_history = Ret out ∧
    (∀ c, c ∈ columns out → c ∈ cols_to_keep) ∧
    "close" ∈ columns out ∧ "volume" ∈ columns out ∧
    index out = index price_history ∧
    index_names out = index_names price_history.
Proof.
  intros Hadj.
  destruct (_format_price_history_run price_history Hadj) as [Hrem ->].
  cbv zeta in Hrem.
  set (cols1 := if bool_decide ("close" ∈ columns price_history) then _ else _) in *.
  set (remove := elements _) in *.
  set (kept := mkDataFrame _ _ _).
  assert (Hclose1 : "close" ∈ cols1).
  { subst cols1. case_bool_decide; [done|]. apply elem_of_app. right. by left. }
  assert (Hkept : ∀ c, c ∈ columns kept ↔ c ∈ cols1 ∧ c ∈ cols_to_keep).
  { intros c. subst kept. cbn [columns]. rewrite list_elem_of_filter, Hrem.
    split; [|by intros [? ?]; split; [intros [_ ?]|]].
    intros [Hn ?]. split; [done|]. apply dec_stable. intros ?. by apply Hn. }
  assert (Hck : "close" ∈ cols_to_keep)
    by (do 3 apply list_elem_of_further; apply list_elem_of_here).
  assert (Hvk : "volume" ∈ cols_to_keep)
    by (do 4 apply list_elem_of_further; apply list_elem_of_here).
  assert (Hidx : index kept = index price_history).
  { unfold index. subst kept. cbn [rows]. rewrite <- list_fmap_compose.
    by apply list_fmap_ext. }
  eexists. split; [reflexivity|].
  case_bool_decide as Hvol.
  - split_and!; [by intros c [_ ?]%Hkept|by apply Hkept|done|done|done].
  - unfold set_column_scalar. cbn [columns index_names].
    rewrite bool_decide_false by done. split_and!.
    + intros c [[_ ?]%Hkept| ->%list_elem_of_singleton]%elem_of_app; done.
    + apply elem_of_app. left. by apply Hkept.
    + apply elem_of_app. right. by left.
    + rewrite <- Hidx. unfold index. cbn [rows]. rewrite <- list_fmap_compose.
      by apply list_fmap_ext.
    + done.
Qed.

(** The table returned has no column outside open, high, low, close and
    volume, always has [close] and [volume], and has the rows of the
    input under the same labels. *)
Theorem _format_price_history_columns price_history :
  "adjClose" ∈ columns price_history →
  ∃ out, _format_price_history price_history = Ret out ∧
    (∀ c, c ∈ columns out → c ∈ cols_to_keep) ∧
    "close" ∈ columns out ∧ "volume" ∈ columns out ∧
    index out = index price_history ∧
    index_names out = index_names price_history.
Proof. apply _format_price_history_shape. Qed.

(** The function consumes [adjClose]: its result no longer has the
    column, so formatting a formatted table fails. *)
Theorem _format_price_history_not_rerunnable price_history out :
  _format_price_history price_history = Ret out →
  _format_price_history out = Raise (KeyError "adjClose").
Proof.
  intros Hrun.
  destruct (decide ("adjClose" ∈ columns price_history)) as [Hadj|Hadj].
  - destruct (_format_price_history_shape price_history Hadj)
      as (out' & Hrun' & Hsub & _).
    rewrite Hrun in Hrun'. injection Hrun' as <-.
    unfold _format_price_history, get_column.
    rewrite bool_decide_false; [done|].
    intros Hin%Hsub. unfold cols_to_keep in Hin.
    repeat (apply elem_of_cons in Hin as [Hin|Hin]; [discriminate|]).
    by apply elem_of_nil in Hin.
  - unfold _format_price_history, get_column in Hrun.
    by rewrite bool_decide_false in Hrun.
Qed.

(** Volume is filled with zero when the input has no [volume] column; a
    column among open, high, low and volume that the input has is passed
    on unchanged. *)
Theorem _format_price_history_volume price_history :
  "adjClose" ∈ columns price_history →
  ∃ out, _format_price_history price_history = Ret out ∧
    ("volume" ∉ columns price_history →
       get_column "volume" out
         = Ret (replicate (length (rows price_history)) (Num 0))) ∧
    (∀ c, c ∈ ["open"; "high"; "low"; "volume"] → c ∈ columns price_history →
       get_column c out = get_column c price_history).
Proof.
  intros Hadj.
  destruct (_format_price_history_run price_history Hadj) as [Hrem ->].
  cbv zeta in Hrem.
  set (cols1 := if bool_decide ("close" ∈ columns price_history) then _ else _) in *.
  set (remove := elements _) in *.
  set (kept := mkDataFrame _ _ _).
  assert (Hcols1 : ∀ c, c ∈ columns price_history → c ∈ cols1).
  { intros c Hc. subst cols1. case_bool_decide; [done|]. apply elem_of_app. by left. }
  assert (Hkept : ∀ c, c ∈ cols_to_keep → c ∈ cols1 → c ∈ columns kept).
  { intros c Hk Hc. subst kept. cbn [columns]. apply list_elem_of_filter.
    split; [|done]. by intros [_ ?]%Hrem. }
  assert (Hvol1 : "volume" ∈ cols1 → "volume" ∈ columns price_history).
  { subst cols1. case_bool_decide; [done|].
    intros [?| Hc%list_elem_of_singleton]%elem_of_app; done. }
  eexists. split; [reflexivity|]. split.
  - intros Hnv.
    rewrite bool_decide_false.
    2:{ subst kept. cbn [columns]. intros [_ ?]%list_elem_of_filter. auto. }
    unfold get_column, set_column_scalar. cbn [columns rows].
    rewrite bool_decide_true by (case_bool_decide; [done|apply elem_of_app; right; by left]).
    f_equal. subst kept. cbn [rows]. rewrite <- !list_fmap_compose.
    apply const_fmap. intros i r _. cbn. by rewrite lookup_total_insert_eq.
  - intros c Hc Hin.
    assert (Hk : c ∈ cols_to_keep).
    { unfold cols_to_keep. repeat (apply elem_of_cons in Hc as [->|Hc];
        [repeat first [apply list_elem_of_here|apply list_elem_of_further]|]).
      by apply elem_of_nil in Hc. }
    assert (Hne : c ≠ "close").
    { repeat (apply elem_of_cons in Hc as [->|Hc]; [done|]).
      by apply elem_of_nil in Hc. }
    assert (Hnr : c ∉ remove) by (by intros [_ ?]%Hrem).
    assert (Hck : c ∈ columns kept) by (apply Hkept; auto).
    assert (Hget : get_column c kept = get_column c price_history).
    { unfold get_column. rewrite !bool_decide_true by done. f_equal.
      subst kept. cbn [rows]. rewrite <- list_fmap_compose.
      apply list_fmap_ext. intros i r _. cbn.
      by rewrite lookup_total_drop, lookup_total_insert_ne. }
    case_bool_decide as Hvol; [done|]. rewrite <- Hget.
    unfold get_column, set_column_scalar. cbn [columns rows].
    rewrite (bool_decide_false ("volume" ∈ columns kept)) by done.
    rewrite (bool_decide_true (c ∈ columns kept ++ ["volume"]))
      by (apply elem_of_app; by left).
    rewrite (bool_decide_true (c ∈ columns kept)) by done. f_equal.
    rewrite <- list_fmap_compose. apply list_fmap_ext. intros i r _. cbn.
    rewrite lookup_total_insert_ne; [done|].
    intros <-. apply Hvol, Hck.
Qed.

End FormatMore.

Lemma _format_price_history_missing_adjClose_witness :
  _format_price_history (empty_frame ["open"; "close"])
    = Raise (KeyError "adjClose").
Proof.
  apply (_format_price_history_missing_adjClose (empty_frame ["open"; "close"])).
  apply (bool_decide_unpack _). vm_compute. exact I.
Defined.

Lemma _format_price_history_columns_witness :
  ∃ out, _format_price_history sample_prices = Ret out ∧
    (∀ c, c ∈ columns out → c ∈ cols_to_keep) ∧
    "close" ∈ columns out ∧ "volume" ∈ columns out ∧
    index out = index sample_prices ∧
    index_names out = index_names sample_prices.
Proof.
  apply (_format_price_history_columns sample_prices).
  apply (bool_decide_unpack _). vm_compute. exact I.
Defined.

Lemma _format_price_history_volume_witness :
  ∃ out, _format_price_history sample_prices = Ret out ∧
    ("volume" ∉ columns sample_prices →
       get_column "volume" out
         = Ret (replicate (length (rows sample_prices)) (Num 0))) ∧
    (∀ c, c ∈ ["open"; "high"; "low"; "volume"] → c ∈ columns sample_prices →
       get_column c out = get_column c sample_prices).
Proof.
  apply (_format_price_history_volume sample_prices).
  apply (bool_decide_unpack _). vm_compute. exact I.
Defined.

Lemma _format_price_history_not_rerunnable_witness :
  ∃ out, _format_price_history sample_prices = Ret out ∧
         _format_price_history out = Raise (KeyError "adjClose").
Proof.
  assert (Hadj : "adjClose" ∈ columns sample_prices)
    by (apply (bool_decide_unpack _); vm_compute; exact I).
  destruct (_format_price_history_shape sample_prices Hadj) as (out & Hrun & _).
  exists out. split; [exact Hrun|].
  exact (_format_price_history_not_rerunnable sample_prices out Hrun).
Defined.

(** ** Asset metadata, continued *)

Section MetadataMore.
Context {W : Type}.

Lemma insert_sorted_Sorted x l :
  Sorted cell_le l → Sorted cell_le (insert_sorted cell_leb x l).
Proof.
  induction l as [|a l IH]; intros Hs; cbn.
  - by repeat constructor.
  - destruct (cell_leb x a) eqn:Hxa.
    + constructor; [done|]. by constructor.
    + apply Sorted_inv in Hs as [Hs Hhd]. constructor; [by apply IH|].
      destruct l as [|b l]; cbn.
      * constructor. by apply cell_leb_total.
      * destruct (cell_leb x b); constructor.
        -- by apply cell_leb_total.
        -- by apply HdRel_inv in Hhd.
Qed.

Lemma stable_sort_Sorted l : Sorted cell_le (stable_sort cell_leb l).
Proof.
  induction l as [|x l IH]; [constructor|]. cbn.
  by apply insert_sorted_Sorted.
Qed.

Lemma length_RangeIndex n : length (RangeIndex n) = n.
Proof. unfold RangeIndex. rewrite length_fmap, length_seqZ. lia. Qed.

(** The rows of the metadata come out in ascending order of symbol and
    are numbered from zero in that order (the asset ids zipline will use);
    the call logs one line when [show_progress] is set and nothing
    otherwise, and leaves the interpreter state alone. *)
Theorem gen_asset_metadata_sorted data show_progress exchange (s : state W) :
  "symbol" ∈ columns data → "date" ∈ columns data →
  rows data ≠ [] → symbol_date_rows data →
  ∃ out,
    gen_asset_metadata data show_progress exchange s =
      (Ret out, s,
       if show_progress then [EvLogInfo "Generating asset metadata."] else []) ∧
    index out = RangeIndex (length (rows out)) ∧
    Sorted cell_le ((λ r : row, r.2 !!! "symbol") <$> rows out) ∧
    columns out
      = ["symbol"; "start_date"; "end_date"; "exchange"; "auto_close_date"].
Proof.
  intros Hs Hd _ Hty. eexists.
  rewrite gen_asset_metadata_run, metadata_frame by done.
  split; [reflexivity|]. cbn [rows columns index].
  set (keys := group_keys "symbol" data).
  assert (Hlen : length (RangeIndex (length keys)) = length keys)
    by apply length_RangeIndex.
  split_and!.
  - rewrite length_zip_with, length_fmap, Hlen, Nat.min_id.
    apply fst_zip. rewrite length_fmap. lia.
  - replace ((λ r : row, r.2 !!! "symbol") <$> _) with keys.
    { apply stable_sort_Sorted. }
    rewrite <- (fmap_zip_snd _ _ keys), <- list_fmap_compose. symmetry.
    etrans; [|apply (snd_zip (RangeIndex (length keys)) keys); lia].
    apply list_fmap_ext. by intros i [l k] _.
  - done.
Qed.

(** In every row of the metadata the first date is not after the last,
    and, when the dates leave room for one more day in a 64-bit timestamp,
    the auto-close date is exactly one day after the last. *)
Theorem gen_asset_metadata_date_order data show_progress exchange (s : state W) :
  "symbol" ∈ columns data → "date" ∈ columns data →
  rows data ≠ [] → symbol_date_rows data → dates_up_to last_day data →
  ∃ out evs,
    gen_asset_metadata data show_progress exchange s = (Ret out, s, evs) ∧
    ∀ r : row, r ∈ rows out → ∃ lo hi,
      r.2 !!! "start_date" = Time lo ∧ r.2 !!! "end_date" = Time hi ∧
      r.2 !!! "auto_close_date" = Time (hi + 86400000000000) ∧
      (lo ≤ hi)%Z.
Proof.
  intros Hs Hd _ Hty Hbound. eexists _, _.
  rewrite gen_asset_metadata_run, metadata_frame by done.
  split; [reflexivity|]. cbn [rows].
  intros [l m] Hin.
  apply elem_of_zip_r, list_elem_of_fmap in Hin as (k & -> & Hk).
  apply (group_keys_spec data Hty) in Hk as (r & Hr & <-).
  destruct (Hty r Hr) as (sym & t & Hsy & _).
  pose proof (dates_of_nonempty data sym r Hty Hr Hsy) as Hdates.
  destruct (cell_min_Time _ Hdates) as (lo & Hlo & Hlin & Hmin).
  destruct (cell_max_Time _ Hdates) as (hi & Hhi & Hhin & Hmax).
  exists lo, hi. cbn. unfold metadata_row.
  rewrite Hsy, group_column_dates, Hlo, Hhi by done.
  split_and!; [done|done| |by apply Hmin].
  apply dates_of_elem in Hhin as (r' & Hr' & Ht).
  by rewrite next_day_Time by by eapply Hbound.
Qed.

End MetadataMore.

Lemma sample_prices_symbol_date_rows : symbol_date_rows sample_prices.
Proof. apply symbol_date_rows_check. vm_compute. reflexivity. Qed.

Lemma gen_asset_metadata_sorted_witness :
  ∃ out,
    gen_asset_metadata sample_prices true "US Equities" (mkState ∅ 0%nat) =
      (Ret out, mkState ∅ 0%nat, [EvLogInfo "Generating asset metadata."]) ∧
    index out = RangeIndex (length (rows out)) ∧
    Sorted cell_le ((λ r : row, r.2 !!! "symbol") <$> rows out) ∧
    columns out
      = ["symbol"; "start_date"; "end_date"; "exchange"; "auto_close_date"].
Proof.
  apply (gen_asset_metadata_sorted sample_prices true "US Equities"
           (mkState ∅ 0%nat)).
  - apply (bool_decide_unpack _). vm_compute. exact I.
  - apply (bool_decide_unpack _). vm_compute. exact I.
  - intros Hnil. apply (f_equal length) in Hnil. vm_compute in Hnil.
    discriminate.
  - apply sample_prices_symbol_date_rows.
Defined.

Lemma gen_asset_metadata_date_order_witness :
  ∃ out evs,
    gen_asset_metadata sample_prices true "US Equities" (mkState ∅ 0%nat)
      = (Ret out, mkState ∅ 0%nat, evs) ∧
    ∀ r : row, r ∈ rows out → ∃ lo hi,
      r.2 !!! "start_date" = Time lo ∧ r.2 !!! "end_date" = Time hi ∧
      r.2 !!! "auto_close_date" = Time (hi + 86400000000000) ∧
      (lo ≤ hi)%Z.
Proof.
  apply (gen_asset_metadata_date_order sample_prices true "US Equities"
           (mkState ∅ 0%nat)).
  - apply (bool_decide_unpack _). vm_compute. exact I.
  - apply (bool_decide_unpack _). vm_compute. exact I.
  - intros Hnil. apply (f_equal length) in Hnil. vm_compute in Hnil.
    discriminate.
  - apply sample_prices_symbol_date_rows.
  - apply dates_up_to_check. vm_compute. reflexivity.
Defined.

(** ** From the raw mapping to one table *)

Section Convert.
Context {W : Type} `{!Externals W}.





End Convert.


(** ** The generator of per-asset tables *)

Section Parse.
Implicit Types (data : DataFrame) (sessions : list Z) (syms : list cell).

Lemma filter_fst {A B} (P : A → Prop) (Q : A * B → Prop)
    `{!∀ x, Decision (P x)} `{!∀ x, Decision (Q x)} (l : list (A * B)) :
  (∀ x, Q x ↔ P x.1) → (filter Q l).*1 = filter P l.*1.
Proof.
  intros HQ. induction l as [|x l IH]; [done|].
  rewrite fmap_cons, !filter_cons.
  destruct (decide (Q x)) as [Hq|Hq], (decide (P x.1)) as [Hp|Hp]; cbn;
    [by rewrite IH|by apply HQ in Hq|by apply HQ in Hp|done].
Qed.

(** Among the labels of one session, exactly one carries a listed symbol. *)
Lemma filter_symbol_session (d : Z) syms (symbol : cell) :
  NoDup syms → symbol ∈ syms →
  filter (λ l : label, l !! 1%nat = Some symbol)
    (s ← syms; [[Time d; s]]) = [[Time d; symbol]].
Proof.
  induction syms as [|s syms IH]; intros Hnd Hin; [by apply elem_of_nil in Hin|].
  apply NoDup_cons in Hnd as [Hs Hnd].
  change ((s :: syms) ≫= λ s0, [[Time d; s0]])
    with ([[Time d; s]] ++ (syms ≫= λ s0, [[Time d; s0]])).
  rewrite filter_app, filter_cons, filter_nil.
  apply elem_of_cons in Hin as [->|Hin].
  - rewrite decide_True by done. cbn. f_equal.
    apply filter_none.
    intros l (s' & ->%list_elem_of_singleton & Hs')%list_elem_of_bind.
    cbn. by intros [= ->].
  - rewrite decide_False by (cbn; intros [= ->]; done). by apply IH.
Qed.

Lemma filter_symbol_labels sessions syms (symbol : cell) :
  NoDup syms → symbol ∈ syms →
  filter (λ l : label, l !! 1%nat = Some symbol)
    (d ← sessions; s ← syms; [[Time d; s]])
    = (λ d, [Time d; symbol]) <$> sessions.
Proof.
  intros Hnd Hin. induction sessions as [|d sessions IH]; [done|].
  change ((d :: sessions) ≫= λ d0, syms ≫= λ s, [[Time d0; s]])
    with ((syms ≫= λ s, [[Time d; s]])
          ++ (sessions ≫= λ d0, syms ≫= λ s, [[Time d0; s]])).
  rewrite filter_app, filter_symbol_session by done.
  rewrite fmap_cons. cbn [app]. f_equal. exact IH.
Qed.

(** The loop of lines 100-101 on a table labelled by the (session, symbol)
    pairs. *)
Lemma yield_loop_sessions data sessions syms (items : Series) :
  index_names data = [Some "date"; Some "symbol"] →
  index data = (d ← sessions; s ← syms; [[Time d; s]]) →
  sessions ≠ [] → NoDup syms → (∀ x, x ∈ items.*2 → x ∈ syms) →
  ∃ ys, yield_loop data items = (ys, None) ∧ ys.*1 = items.*1 ∧
        Forall (λ y : label * DataFrame,
                  index_names y.2 = [Some "date"] ∧
                  columns y.2 = columns data ∧
                  index y.2 = (λ d, [Time d]) <$> sessions) ys.
Proof.
  intros Hnames Hidx Hne Hnd.
  induction items as [|[asset_id symbol] items IH]; intros Hsub.
  - exists []. by split_and!.
  - destruct IH as (ys & Hys & Hids & Hall).
    { intros x Hx. apply Hsub. by right. }
    assert (Hin : symbol ∈ syms) by (apply Hsub; by left).
    cbn [yield_loop]. unfold xs. rewrite Hnames.
    cbn [level_position]. rewrite bool_decide_false by done.
    rewrite bool_decide_true by done. cbn [fmap option_fmap option_map].
    set (sel := filter _ (rows data)).
    assert (Hsel : sel.*1 = (λ d, [Time d; symbol]) <$> sessions).
    { subst sel.
      etrans; [by apply (filter_fst (λ l : label, l !! 1%nat = Some symbol))|].
      fold (index data). rewrite Hidx. by apply filter_symbol_labels. }
    destruct sel as [|r sel'] eqn:Hs.
    { destruct sessions; [done|discriminate]. }
    rewrite <- Hs in *. rewrite Hys.
    eexists. split; [reflexivity|]. split; [cbn; by rewrite Hids|].
    constructor; [|done]. cbn. split_and!; [done|done|].
    unfold index. cbn [rows].
    transitivity (delete 1%nat <$> sel.*1).
    { rewrite <- !list_fmap_compose. by apply list_fmap_ext. }
    rewrite Hsel, <- list_fmap_compose. by apply list_fmap_ext.
Qed.

(** With a [date], a [symbol] and an [adjClose] column, at least one
    session in range and distinct symbols in [symbol_map], the generator
    runs to its end and yields one table per entry of [symbol_map], in
    order and under that entry's asset id; each table is indexed by date
    alone and has exactly one row per session, in calendar order. *)
Theorem parse_pricing_and_vol_yields data calendar start end_
    (symbol_map : Series) :
  "date" ∈ columns data → "symbol" ∈ columns data →
  "adjClose" ∈ columns data →
  sessions_in_range calendar start end_ ≠ [] → NoDup symbol_map.*2 →
  ∃ ys,
    parse_pricing_and_vol data calendar start end_ symbol_map = (ys, None) ∧
    ys.*1 = symbol_map.*1 ∧
    Forall (λ y : label * DataFrame,
              index_names y.2 = [Some "date"] ∧
              index y.2 = (λ d, [Time d]) <$> sessions_in_range calendar start end_ ∧
              "close" ∈ columns y.2 ∧ "volume" ∈ columns y.2) ys.
Proof.
  intros Hd Hs Hadj Hne Hnd. unfold parse_pricing_and_vol.
  rewrite _set_dates_for_calendar_frame by done. cbn [mbind outcome_bind].
  set (aligned := mkDataFrame _ _ _).
  assert (Hadj' : "adjClose" ∈ columns aligned).
  { subst aligned. cbn [columns]. apply list_elem_of_filter. split; [|done].
    intros Hin. repeat (apply elem_of_cons in Hin as [Hin|Hin]; [discriminate|]).
    by apply elem_of_nil in Hin. }
  destruct (_format_price_history_shape aligned Hadj')
    as (out & -> & _ & Hclose & Hvol & Hidx & Hnames).
  destruct (yield_loop_sessions out (sessions_in_range calendar start end_)
              symbol_map.*2 symbol_map) as (ys & -> & Hids & Hall);
    [done| |done|done|done|].
  { rewrite Hidx. unfold index. subst aligned. cbn [rows].
    rewrite <- list_fmap_compose. etrans; [|apply list_fmap_id].
    by apply list_fmap_ext. }
  exists ys. split_and!; [done|done|].
  eapply Forall_impl; [exact Hall|]. intros y (Hn & Hc & Hi).
  split_and!; [done|done|by rewrite Hc|by rewrite Hc].
Qed.

(** When the calendar has no session in range, the generator fails at the
    first entry of [symbol_map] with a [KeyError] for its symbol and yields
    nothing. *)
Theorem parse_pricing_and_vol_no_session data calendar start end_
    asset_id symbol (rest : Series) :
  "date" ∈ columns data → "symbol" ∈ columns data →
  "adjClose" ∈ columns data →
  sessions_in_range calendar start end_ = [] →
  parse_pricing_and_vol data calendar start end_ ((asset_id, symbol) :: rest)
    = ([], Some (KeyError (cell_repr symbol))).
Proof.
  intros Hd Hs Hadj Hnone. unfold parse_pricing_and_vol.
  rewrite _set_dates_for_calendar_frame by done. cbn [mbind outcome_bind].
  set (aligned := mkDataFrame _ _ _).
  assert (Hempty : rows aligned = [])
    by (subst aligned; cbn [rows]; by rewrite Hnone).
  assert (Hadj' : "adjClose" ∈ columns aligned).
  { subst aligned. cbn [columns]. apply list_elem_of_filter. split; [|done].
    intros Hin. repeat (apply elem_of_cons in Hin as [Hin|Hin]; [discriminate|]).
    by apply elem_of_nil in Hin. }
  destruct (_format_price_history_shape aligned Hadj')
    as (out & -> & _ & _ & _ & Hidx & Hnames).
  assert (Hrows : rows out = []).
  { apply (f_equal length) in Hidx. unfold index in Hidx.
    rewrite !length_fmap, Hempty in Hidx. by destruct (rows out). }
  cbn [yield_loop]. unfold xs. rewrite Hnames, Hrows. subst aligned.
  cbn [index_names level_position].
  rewrite bool_decide_false by done. by rewrite bool_decide_true by done.
Qed.

(** A failure of the alignment or of the formatting ends the generator
    before it yields anything: without an [adjClose] column it raises
    [KeyError] for that column. *)
Theorem parse_pricing_and_vol_missing_adjClose data calendar start end_
    (symbol_map : Series) :
  "date" ∈ columns data → "symbol" ∈ columns data →
  "adjClose" ∉ columns data →
  parse_pricing_and_vol data calendar start end_ symbol_map
    = ([], Some (KeyError "adjClose")).
Proof.
  intros Hd Hs Hadj. unfold parse_pricing_and_vol.
  rewrite _set_dates_for_calendar_frame by done. cbn [mbind outcome_bind].
  unfold _format_price_history, get_column. cbn [columns].
  rewrite bool_decide_false; [done|].
  by intros [_ ?]%list_elem_of_filter.
Qed.

End Parse.

Lemma parse_pricing_and_vol_yields_witness :
  ∃ ys,
    parse_pricing_and_vol sample_prices sample_calendar 0 0 sample_symbol_map
      = (ys, None) ∧
    ys.*1 = sample_symbol_map.*1 ∧
    Forall (λ y : label * DataFrame,
              index_names y.2 = [Some "date"] ∧
              index y.2 = (λ d, [Time d]) <$> sessions_in_range sample_calendar 0 0 ∧
              "close" ∈ columns y.2 ∧ "volume" ∈ columns y.2) ys.
Proof.
  apply (parse_pricing_and_vol_yields sample_prices sample_calendar 0 0
           sample_symbol_map).
  - apply (bool_decide_unpack _). vm_compute. exact I.
  - apply (bool_decide_unpack _). vm_compute. exact I.
  - apply (bool_decide_unpack _). vm_compute. exact I.
  - vm_compute. discriminate.
  - apply (bool_decide_unpack _). vm_compute. exact I.
Defined.

Lemma parse_pricing_and_vol_no_session_witness :
  parse_pricing_and_vol sample_prices (mkCalendar (λ _ _, [])) 0 0
    [([Num 0], Str "QQQ")]
    = ([], Some (KeyError "QQQ")).
Proof.
  apply (parse_pricing_and_vol_no_session sample_prices
           (mkCalendar (λ _ _, [])) 0 0 [Num 0] (Str "QQQ") []).
  - apply (bool_decide_unpack _). vm_compute. exact I.
  - apply (bool_decide_unpack _). vm_compute. exact I.
  - apply (bool_decide_unpack _). vm_compute. exact I.
  - reflexivity.
Defined.

Lemma parse_pricing_and_vol_missing_adjClose_witness :
  parse_pricing_and_vol (empty_frame ["date"; "symbol"; "close"])
    sample_calendar 0 0 sample_symbol_map
    = ([], Some (KeyError "adjClose")).
Proof.
  apply (parse_pricing_and_vol_missing_adjClose
           (empty_frame ["date"; "symbol"; "close"]) sample_calendar 0 0
           sample_symbol_map).
  - apply (bool_decide_unpack _). vm_compute. exact I.
  - apply (bool_decide_unpack _). vm_compute. exact I.
  - apply (bool_decide_unpack _). vm_compute. exact I.
Defined.

(** ** The whole ingestion, from the clock to the writers *)

Section IngestMore.
Context {W : Type} `{!Externals W}.
Implicit Types (s : state W).

Lemma emits_gen_asset_metadata_any (P : event → Prop) data show_progress exchange :
  P (EvLogInfo "Generating asset metadata.") →
  emits P (gen_asset_metadata (W := W) data show_progress exchange).
Proof.
  intros HP. unfold gen_asset_metadata.
  apply emits_bind.
  { destruct show_progress; [by apply emits_emit|apply emits_ret]. }
  intros _. repeat (apply emits_bind; [apply emits_lift|intros ?]).
  apply emits_lift.
Qed.

Lemma invocations_none evs :
  Forall (λ ev, is_invoke ev = false) evs → invocations evs = 0%nat.
Proof.
  unfold invocations. induction 1 as [|ev evs Hev _ IH]; [done|].
  cbn. by rewrite Hev.
Qed.

Lemma writers_called_app l1 l2 :
  writers_called (l1 ++ l2) = writers_called l1 ++ writers_called l2.
Proof. apply omap_app. Qed.

Lemma writers_called_none evs :
  Forall (λ ev, writer_of ev = None) evs → writers_called evs = [].
Proof.
  unfold writers_called. induction 1 as [|ev evs Hev _ IH]; [done|].
  cbn. by rewrite Hev.
Qed.

Lemma fetch_loop_emits (P : event → Prop) items n ss es sp hist s :
  (∀ kw r, P (EvInvoke kw r)) → (∀ msg, P (EvLogInfo msg)) →
  (∀ msg, P (EvLogError msg)) →
  Forall P (fetch_loop items n ss es sp hist s).2.
Proof.
  intros Hinv Hinfo Herr.
  revert hist s. induction items as [|[ix symbol] rest IH]; intros hist s.
  - constructor.
  - rewrite fetch_loop_cons.
    set (log := if sp then _ else _).
    assert (Hlog : Forall P log)
      by (subst log; destruct sp; repeat constructor; apply Hinfo).
    destruct (historical_price_full _ (world s)) as [[v|e] w].
    + destruct (truthy v).
      * destruct (subscript v "historical") as [hv|e].
        -- match goal with |- context [fetch_loop rest n ss es sp ?h ?st] =>
             specialize (IH h st); destruct (fetch_loop rest n ss es sp h st)
               as [[r s2] t2] end.
           cbn [fst snd] in *. apply Forall_app. split; [done|].
           apply List.Forall_cons; [apply Hinv|done].
        -- cbn [fst snd]. apply Forall_app. split; [done|].
           apply List.Forall_cons; [apply Hinv|apply List.Forall_nil].
      * match goal with |- context [fetch_loop rest n ss es sp ?h ?st] =>
          specialize (IH h st); destruct (fetch_loop rest n ss es sp h st)
            as [[r s2] t2] end.
        cbn [fst snd] in *. apply Forall_app. split; [done|].
        apply List.Forall_cons; [apply Hinv|done].
    + destruct (is_Exception e); cbn [fst snd]; apply Forall_app; (split; [done|]);
        repeat (apply List.Forall_cons; [first [apply Hinv|apply Herr]|]);
        apply List.Forall_nil.
Qed.

(** The run of a sequence: the events of the first part, then those of
    the second if the first returned. *)
Lemma bind_run {A B} (m : M W A) (f : A → M W B) s :
  (m ≫= f) s =
    match m s with
    | (Ret a, s1, t1) => let '(r, s2, t2) := f a s1 in (r, s2, t1 ++ t2)
    | (Raise e, s1, t1) => (Raise e, s1, t1)
    end.
Proof. done. Qed.

Lemma ingest_fmp_events (P : event → Prop) asset_db_writer daily_bar_writer
    adjustment_writer calendar show_progress s :
  P (EvLogInfo "Generating asset metadata.") →
  (∀ equities exchanges, P (EvAssetWrite equities exchanges)) →
  (∀ data sp, P (EvDailyBarWrite data sp)) →
  (∀ splits dividends, P (EvAdjustmentWrite splits dividends)) →
  let end_ := Timestamp_now (world s) in
  let fetched :=
    get_stocks_history stocks (end_ - Timedelta_days period) end_ true s in
  let r := ingest_fmp asset_db_writer daily_bar_writer adjustment_writer
             calendar show_progress s in
  ∃ t2, r.2 = fetched.2 ++ t2 ∧ Forall P t2 ∧
        (∀ e, fetched.1.1 = Raise e → r.1.1 = Raise e ∧ t2 = []).
Proof.
  intros Hlog Hasset Hdaily Hadj end_ fetched r.
  assert (Hrun : r = ingest_fmp asset_db_writer daily_bar_writer
                       adjustment_writer calendar show_progress s) by done.
  clearbody r. subst fetched.
  unfold ingest_fmp in Hrun. rewrite bind_run in Hrun. unfold now_utc in Hrun.
  fold end_ in Hrun. unfold stocks, period. rewrite bind_run in Hrun.
  cbn [app] in Hrun.
  destruct (get_stocks_history _ _ _ _ s) as [[[raw|e] s1] t1].
  - match type of Hrun with context [?m s1] =>
      assert (Hm : emits P m);
        [|specialize (Hm s1); destruct (m s1) as [[r' s2] t2]; subst r]
    end.
    { apply emits_bind; [auto with emits|]. intros raw_data_df.
      apply emits_bind; [auto with emits|]. intros symbol_date.
      apply emits_bind; [by apply emits_gen_asset_metadata_any|].
      intros asset_metadata.
      apply emits_bind; [by apply emits_call_sink|]. intros _.
      apply emits_bind; [auto with emits|]. intros symbol_map.
      apply emits_bind; [by apply emits_call_sink|]. intros _.
      by apply emits_call_sink. }
    exists t2. cbn [fst snd] in *. split_and!; [done|done|]. by intros e.
  - subst r. exists []. cbn [fst snd]. rewrite app_nil_r.
    split_and!; [done|constructor|].
    intros e' [= <-]. done.
Qed.

(** In every run, [ingest_fmp] calls the API at most twice, and each call
    asks for [QQQ] or [SPY] over the 100 days that end at the time the
    ingestion started, with the default key. *)
Theorem ingest_fmp_api_calls asset_db_writer daily_bar_writer
    adjustment_writer calendar show_progress s :
  let end_ := Timestamp_now (world s) in
  let r := ingest_fmp asset_db_writer daily_bar_writer adjustment_writer
             calendar show_progress s in
  (invocations r.2 ≤ 2)%nat ∧
  Forall (well_formed_request
            (strftime (end_ - Timedelta_days 100) FMP_DATE_FORMAT)
            (strftime end_ FMP_DATE_FORMAT) ["QQQ"; "SPY"]) r.2.
Proof.
  intros end_ r.
  destruct (ingest_fmp_events (λ ev, is_invoke ev = false) asset_db_writer
              daily_bar_writer adjustment_writer calendar show_progress s)
    as (t2 & Hr & Ht2 & _); try done.
  fold end_ r in Hr. rewrite Hr. unfold get_stocks_history, stocks, period.
  split.
  - rewrite invocations_app, (invocations_none t2) by done.
    match goal with |- context [fetch_loop ?i ?n ?a ?b ?c ?d ?e] =>
      pose proof (fetch_loop_invocations i n a b c d e) as [Hle _] end.
    cbn [length zip seq] in *. cbn [zip_with length] in Hle. lia.
  - apply Forall_app. split.
    + apply fetch_loop_requests. done.
    + eapply Forall_impl; [exact Ht2|]. by intros [].
Qed.

(** In every run, the writers [ingest_fmp] calls are, in this order, the
    asset writer, the daily bar writer and the adjustment writer, each at
    most once; the run stops at the first one that raises, and a run that
    returns has called all three. *)
Theorem ingest_fmp_writers_in_order asset_db_writer daily_bar_writer
    adjustment_writer calendar show_progress s :
  let r := ingest_fmp asset_db_writer daily_bar_writer adjustment_writer
             calendar show_progress s in
  writers_called r.2 `prefix_of` [AssetDBWriter; DailyBarWriter; AdjustmentWriter] ∧
  (r.1.1 = Ret () →
   writers_called r.2 = [AssetDBWriter; DailyBarWriter; AdjustmentWriter]).
Proof.
  intros r.
  assert (Hrun : r = ingest_fmp asset_db_writer daily_bar_writer
                       adjustment_writer calendar show_progress s) by done.
  clearbody r. symmetry in Hrun. revert Hrun. unfold ingest_fmp.
  rewrite bind_run. unfold now_utc. rewrite bind_run. cbn [app].
  unfold get_stocks_history.
  match goal with |- context [fetch_loop ?i ?n ?a ?b ?c ?d ?e] =>
    pose proof (fetch_loop_emits (λ ev, writer_of ev = None) i n a b c d e
                  (λ _ _, eq_refl) (λ _, eq_refl) (λ _, eq_refl)) as Ht1;
    destruct (fetch_loop i n a b c d e) as [[[raw|e1] s1] t1] end;
    cbn [fst snd] in Ht1; apply writers_called_none in Ht1.
  2:{ intros <-. cbn [fst snd]. rewrite Ht1. split; [by eexists|done]. }
  rewrite bind_run. unfold lift at 1.
  destruct (convert_price_to_df raw) as [raw_data_df|e2];
    [|intros <-; cbn [fst snd]; rewrite app_nil_r, Ht1; split; [by eexists|done]].
  rewrite bind_run. unfold lift at 1.
  destruct (select_columns _ raw_data_df) as [symbol_date|e3];
    [|intros <-; cbn [fst snd]; rewrite !app_nil_r, Ht1; split; [by eexists|done]].
  rewrite bind_run.
  pose proof (emits_gen_asset_metadata_any (λ ev, writer_of ev = None)
                symbol_date show_progress "US Equities" eq_refl s1) as Ht2.
  cbn [default lookup list_lookup] in *.
  destruct (gen_asset_metadata symbol_date show_progress _ s1)
    as [[[asset_metadata|e4] s2] t2]; cbn [fst snd] in Ht2;
    apply writers_called_none in Ht2;
    [|intros <-; cbn [fst snd app]; rewrite !writers_called_app, Ht1, Ht2;
      split; [by eexists|done]].
  rewrite bind_run. unfold call_sink at 1.
  destruct (asset_db_writer _ _ (world s2)) as [[[]|e5] w3];
    [|intros <-; cbn [fst snd app]; rewrite !writers_called_app, Ht1, Ht2;
      split; [by eexists|done]].
  rewrite bind_run. unfold lift at 1.
  destruct (getattr_column "symbol" asset_metadata) as [symbol_map|e6];
    [|intros <-; cbn [fst snd app]; rewrite !writers_called_app, Ht1, Ht2;
      split; [by eexists|done]].
  rewrite bind_run. unfold call_sink.
  destruct (daily_bar_writer _ _ _) as [[[]|e7] w4];
    [|intros <-; cbn [fst snd app heap world]; rewrite !writers_called_app, Ht1, Ht2;
      split; [by eexists|done]].
  cbn [heap world].
  destruct (adjustment_writer _ _ _) as [[[]|e8] w5];
    intros <-; cbn [fst snd app]; rewrite !writers_called_app, Ht1, Ht2;
    (split; [by eexists|done]).
Qed.

Lemma fetch_loop_nothing items n ss es sp hist s :
  (∀ kw w, truthy_response (historical_price_full kw w) = Some false) →
  ∃ s' t, fetch_loop items n ss es sp hist s = (Ret hist, s', t) ∧
          invocations t = length items.
Proof.
  intros Hempty. revert s. induction items as [|[ix symbol] rest IH]; intros s.
  - by exists s, [].
  - rewrite fetch_loop_cons.
    match goal with |- context [historical_price_full ?kw (world s)] =>
      specialize (Hempty kw (world s)) as Hv;
      destruct (historical_price_full kw (world s)) as [[v|e] w] end;
      [|done].
    cbn in Hv. injection Hv as ->.
    match goal with |- context [fetch_loop rest n ss es sp hist ?st] =>
      destruct (IH st) as (s' & t & -> & Ht) end.
    eexists _, _. split; [done|].
    rewrite invocations_app, invocations_log, invocations_invoke, Ht. done.
Qed.

(** When every response of the API is empty, [ingest_fmp] makes its two
    calls and then fails with a [KeyError] on the table without columns,
    before any writer is called. *)
Theorem ingest_fmp_nothing_fetched asset_db_writer daily_bar_writer
    adjustment_writer calendar show_progress s :
  (∀ kw w, truthy_response (historical_price_full kw w) = Some false) →
  let r := ingest_fmp asset_db_writer daily_bar_writer adjustment_writer
             calendar show_progress s in
  (∃ c, r.1.1 = Raise (KeyError c)) ∧
  invocations r.2 = 2%nat ∧ writers_called r.2 = [].
Proof.
  intros Hempty r.
  assert (Hrun : r = ingest_fmp asset_db_writer daily_bar_writer
                       adjustment_writer calendar show_progress s) by done.
  clearbody r. symmetry in Hrun. revert Hrun. unfold ingest_fmp.
  rewrite bind_run. unfold now_utc. rewrite bind_run. cbn [app].
  unfold get_stocks_history.
  match goal with |- context [fetch_loop ?i ?n ?a ?b ?c ?d ?e] =>
    pose proof (fetch_loop_emits (λ ev, writer_of ev = None) i n a b c d e
                  (λ _ _, eq_refl) (λ _, eq_refl) (λ _, eq_refl)) as Ht1;
    destruct (fetch_loop_nothing i n a b c d e Hempty) as (s1 & t1 & Hf & Hn);
    rewrite Hf in Ht1 |- * end.
  cbn [fst snd] in Ht1. apply writers_called_none in Ht1.
  rewrite bind_run. unfold lift at 1.
  change (convert_price_to_df []) with (Ret (mkDataFrame [None] [] [])).
  cbv beta iota. rewrite bind_run. unfold lift at 1.
  change (select_columns ["symbol"; "date"] (mkDataFrame [None] [] []))
    with (Raise (A := DataFrame)
            (KeyError ("None of [Index(" +:+ repr_list ["symbol"; "date"] +:+
                       ", dtype='object')] are in the [columns]"))).
  intros <-. cbn [fst snd]. rewrite !app_nil_r.
  split_and!; [by eexists|done|done].
Qed.

(** When the first request raises an [Exception], the ingestion ends there
    with the [UnboundLocalError] of the retry loop: one API call, the second
    symbol never asked for, no writer called. *)
Theorem ingest_fmp_request_failure asset_db_writer daily_bar_writer
    adjustment_writer calendar show_progress s e :
  let end_ := Timestamp_now (world s) in
  let kw := <["apikey" := VStr FMP_API_KEY]>
              (request_params
                 (strftime (end_ - Timedelta_days 100) FMP_DATE_FORMAT)
                 (strftime end_ FMP_DATE_FORMAT) "QQQ") in
  (historical_price_full kw (world s)).1 = Raise e →
  is_Exception e = true →
  let r := ingest_fmp asset_db_writer daily_bar_writer adjustment_writer
             calendar show_progress s in
  r.1.1 = Raise (UnboundLocalError "str_error") ∧
  invocations r.2 = 1%nat ∧ writers_called r.2 = [].
Proof.
  intros end_ kw Hfail Hexc r.
  destruct (ingest_fmp_events (λ _, True) asset_db_writer daily_bar_writer
              adjustment_writer calendar show_progress s)
    as (t2 & Hr & _ & Hraise); try done.
  fold end_ r in Hr, Hraise. revert Hr Hraise.
  unfold get_stocks_history, stocks, period. cbn [length seq zip zip_with].
  rewrite fetch_loop_cons. fold kw.
  destruct (historical_price_full kw (world s)) as [[v|e'] w];
    cbn in Hfail; [done|]. injection Hfail as ->. rewrite Hexc.
  cbn [fst snd]. intros Hr Hraise.
  destruct (Hraise _ eq_refl) as [Hres ->]. rewrite Hr, Hres, app_nil_r.
  done.
Qed.

(** A run that returns has called the adjustment writer last, with the two
    frames built from column headers alone. *)
Lemma ingest_fmp_returns_after_adjustments asset_db_writer daily_bar_writer
    adjustment_writer calendar show_progress s :
  let r := ingest_fmp asset_db_writer daily_bar_writer adjustment_writer
             calendar show_progress s in
  r.1.1 = Ret () →
  ∃ evs, r.2 = evs ++ [EvAdjustmentWrite (empty_frame splits_columns)
                         (empty_frame dividends_columns)].
Proof.
  intros r.
  assert (Hrun : r = ingest_fmp asset_db_writer daily_bar_writer
                       adjustment_writer calendar show_progress s) by done.
  clearbody r. symmetry in Hrun. revert Hrun. unfold ingest_fmp.
  rewrite bind_run. unfold now_utc. rewrite bind_run. cbn [app].
  destruct (get_stocks_history _ _ _ _ s) as [[[raw|e1] s1] t1];
    [|by intros <-].
  rewrite bind_run. unfold lift at 1.
  destruct (convert_price_to_df raw) as [raw_data_df|e2]; [|by intros <-].
  rewrite bind_run. unfold lift at 1.
  destruct (select_columns _ raw_data_df) as [symbol_date|e3]; [|by intros <-].
  rewrite bind_run.
  destruct (gen_asset_metadata symbol_date show_progress _ s1)
    as [[[asset_metadata|e4] s2] t2]; [|by intros <-].
  rewrite bind_run. unfold call_sink at 1.
  destruct (asset_db_writer _ _ (world s2)) as [[[]|e5] w3]; [|by intros <-].
  rewrite bind_run. unfold lift at 1.
  destruct (getattr_column "symbol" asset_metadata) as [symbol_map|e6];
    [|by intros <-].
  rewrite bind_run. unfold call_sink.
  destruct (daily_bar_writer _ _ _) as [[[]|e7] w4]; [|by intros <-].
  cbn [heap world].
  destruct (adjustment_writer _ _ _) as [[[]|e8] w5]; [|by intros <-].
  intros <- _. cbn [fst snd]. eexists. rewrite !app_assoc. reflexivity.
Qed.

(** C8: in every run of [ingest_fmp], whatever was fetched and whatever
    the writers do, each call of the adjustment writer is handed the two
    frames built from column headers alone: they have no row; and a run
    that returns has made that call, as its last step. *)
Theorem ingest_fmp_adjustments_empty asset_db_writer daily_bar_writer
    adjustment_writer calendar show_progress s :
  let r := ingest_fmp asset_db_writer daily_bar_writer adjustment_writer
             calendar show_progress s in
  Forall (λ ev, match ev with
                | EvAdjustmentWrite splits dividends =>
                    rows splits = [] ∧ columns splits = splits_columns ∧
                    rows dividends = [] ∧ columns dividends = dividends_columns
                | _ => True
                end) r.2 ∧
  (r.1.1 = Ret () →
   ∃ evs splits dividends,
     r.2 = evs ++ [EvAdjustmentWrite splits dividends] ∧
     rows splits = [] ∧ columns splits = splits_columns ∧
     rows dividends = [] ∧ columns dividends = dividends_columns).
Proof.
  intros r. split.
  - apply ingest_fmp_adjustment_events.
  - intros Hret.
    destruct (ingest_fmp_returns_after_adjustments asset_db_writer
                daily_bar_writer adjustment_writer calendar show_progress s Hret)
      as (evs & Hevs).
    by exists evs, (empty_frame splits_columns), (empty_frame dividends_columns).
Qed.

End IngestMore.

Lemma ingest_fmp_nothing_fetched_witness :
  let r := ingest_fmp (Externals0 := sample_externals empty_api)
             (λ _ _, ok_sink) (λ _ _, ok_sink) (λ _ _, ok_sink)
             sample_calendar true (mkState ∅ 0%nat) in
  (∃ c, r.1.1 = Raise (KeyError c)) ∧
  invocations r.2 = 2%nat ∧ writers_called r.2 = [].
Proof.
  apply (ingest_fmp_nothing_fetched (Externals0 := sample_externals empty_api)
           (λ _ _, ok_sink) (λ _ _, ok_sink) (λ _ _, ok_sink)
           sample_calendar true (mkState ∅ 0%nat)).
  intros kw w. reflexivity.
Defined.

Lemma ingest_fmp_request_failure_witness :
  let r := ingest_fmp (Externals0 := sample_externals failing_api)
             (λ _ _, ok_sink) (λ _ _, ok_sink) (λ _ _, ok_sink)
             sample_calendar true (mkState ∅ 0%nat) in
  r.1.1 = Raise (UnboundLocalError "str_error") ∧
  invocations r.2 = 1%nat ∧ writers_called r.2 = [].
Proof.
  apply (ingest_fmp_request_failure (Externals0 := sample_externals failing_api)
           (λ _ _, ok_sink) (λ _ _, ok_sink) (λ _ _, ok_sink)
           sample_calendar true (mkState ∅ 0%nat) (Exception "HTTP 503"));
    reflexivity.
Defined.
